(** * simple_httpclient: a shallow embedding of [pkg/http.go]

    The package wraps fasthttp behind one request path, [Client.Do].  This
    file embeds the package's data model, [New], [getURL],
    [mergeResponseHeaders], [getResponseTime] and [Do], together with the
    parts of Go's [strings], [net/url], [fmt], [time] and of fasthttp that
    [Do] calls (those are embedded from the libraries' own sources), and
    proves the properties of the specification about them.

    Go strings are byte strings: [string] with one [ascii] per byte.  Go
    maps are [gmap]s; the order in which a [range] loop visits a map is not
    fixed by the language, so it is supplied by the environment ([Env]). *)

From Stdlib Require Import ZArith Ascii String List Lia.
From stdpp Require Import base option list gmap strings sorting fin_maps.

#[local] Set Warnings "-clear-no-such-hyp".

Local Open Scope string_scope.
Local Open Scope Z_scope.
Local Open Scope list_scope.

(** ** Go library: [strings] *)

Module strings.

(** [strings.HasPrefix(s, prefix)]: [s] starts with [prefix]. *)
Definition HasPrefix (s prefix : string) : bool := String.prefix prefix s.

End strings.

(** ** The data model of [pkg/http.go]

    The names are the source's.  Where two of them would meet in one name
    space, the later one is changed: the fields [Body] and [Headers] of
    [Response] are [RespBody] and [RespHeaders], the field [Client] of
    [Client] is [ClientEngine], and the field [Request] of [DoOptions] is
    [DoRequest]. *)

(** [type HTTPMethod string] *)
Definition HTTPMethod : Type := string.

Definition POST : HTTPMethod := "POST".
Definition GET : HTTPMethod := "GET".
Definition PUT : HTTPMethod := "PUT".
Definition PATH : HTTPMethod := "POST".
Definition DELETE : HTTPMethod := "DELETE".

(** The constants of the [const] block, in declaration order. *)
Definition HTTPMethod_constants : list HTTPMethod := [POST; GET; PUT; PATH; DELETE].

(** [time.Duration]: a number of nanoseconds, an [int64]. *)
Definition Duration : Type := Z.

Record Request := {
  URL : string;
  Method : HTTPMethod;
  ContentType : string;
  Headers : gmap string string;
  Query : gmap string string;
  Body : string
}.

Record Response := {
  RespBody : string;
  RespHeaders : gmap string string;
  StatusCode : Z;
  Time : Z
}.

(** [fasthttp.Client], of which the package sets one field. *)
Record fasthttp_Client := {
  MaxIdemponentCallAttempts : Z
}.

Record Client := {
  ClientEngine : fasthttp_Client;
  baseURL : string;
  contentType : string;
  timeout : Duration
}.

Record NewClientOptions := {
  BaseURL : string;
  DefaultContentType : string;
  Timeout : Duration;
  Attemps : Z;
  TLSCert : string
}.

(** ** [getURL] *)

Definition getURL (h : Client) (rURL : string) : string :=
  if strings.HasPrefix rURL "http" || strings.HasPrefix rURL "https"
  then rURL
  else baseURL h +:+ rURL.

(** ** Go library: [time] *)

Module time.

Definition Nanosecond : Duration := 1.
Definition Millisecond : Duration := 1000000.
Definition Second : Duration := 1000000000.

Definition minDuration : Duration := - 2 ^ 63.
Definition maxDuration : Duration := 2 ^ 63 - 1.

(** Conversion of an integer to [int64]: two's complement wrap-around. *)
Definition int64 (z : Z) : Z := (z + 2 ^ 63) mod 2 ^ 64 - 2 ^ 63.

(** [time.Time]: an instant of the wall clock, in nanoseconds from the
    clock's origin, and the reading of the process's monotonic clock when
    the value carries one ([time.Now] attaches it; values built from dates
    or parsed from text carry none). *)
Record Time := {
  wall : Z;
  mono : option Z
}.

(** [subMono]: the difference of two monotonic readings, saturated. *)
Definition subMono (t u : Z) : Duration :=
  let d := int64 (t - u) in
  if (d <? 0) && (t >? u) then maxDuration
  else if (d >? 0) && (t <? u) then minDuration
  else d.

(** The wall-clock branch of [Time.Sub]: the difference, replaced by
    [maxDuration] or [minDuration] when it does not fit a [Duration]. *)
Definition subWall (t u : Z) : Duration :=
  let d := t - u in
  if d >? maxDuration then maxDuration
  else if d <? minDuration then minDuration
  else d.

(** [t.Sub(u)]: on the monotonic clock when both values carry a reading,
    on the wall clock otherwise. *)
Definition Sub (t u : Time) : Duration :=
  match mono t, mono u with
  | Some mt, Some mu => subMono mt mu
  | _, _ => subWall (wall t) (wall u)
  end.

(** [d.Milliseconds()]: [int64(d) / 1e6], Go's division truncating
    towards zero. *)
Definition Milliseconds (d : Duration) : Z := Z.quot d 1000000.

(** The time from [u] to [t] in nanoseconds, on the clock [Sub] compares
    them on. *)
Definition elapsed (u t : Time) : Z :=
  match mono t, mono u with
  | Some mt, Some mu => mt - mu
  | _, _ => wall t - wall u
  end.


End time.

(** ** [getResponseTime] *)

Definition getResponseTime (start end_ : time.Time) : Z :=
  time.Milliseconds (time.Sub end_ start).

(** ** Go library: [net/url] *)

Module url.

Definition byte_in (lo hi c : ascii) : bool :=
  (N_of_ascii lo <=? N_of_ascii c)%N && (N_of_ascii c <=? N_of_ascii hi)%N.

(** [shouldEscape(c, encodeQueryComponent)]: letters, digits and the marks
    [- _ . ~] are kept, every other byte is escaped. *)
Definition shouldEscape (c : ascii) : bool :=
  if byte_in "a" "z" c || byte_in "A" "Z" c || byte_in "0" "9" c then false
  else if bool_decide (c ∈ ["-"; "_"; "."; "~"]%char) then false
  else true.

Definition upperhex : string := "0123456789ABCDEF".

Definition hexdigit (n : N) : ascii :=
  match String.get (N.to_nat n) upperhex with
  | Some d => d
  | None => "0"%char
  end.

(** What [escape] writes for one byte of its input. *)
Definition escape_byte (c : ascii) : string :=
  if shouldEscape c then
    if Ascii.eqb c " " then "+"
    else String "%" (String (hexdigit (N.shiftr (N_of_ascii c) 4))
                      (String (hexdigit (N.land (N_of_ascii c) 15)) ""))
  else String c "".

(** [url.QueryEscape(s)] *)
Fixpoint QueryEscape (s : string) : string :=
  match s with
  | EmptyString => ""
  | String c s' => escape_byte c +:+ QueryEscape s'
  end.

(** [url.Values] is [map[string][]string]. *)
Abbreviation Values := (gmap string (list string)).

(** [v.Add(key, value)]: [v[key] = append(v[key], value)]. *)
Definition Add (key value : string) (v : Values) : Values :=
  <[key := default [] (v !! key) ++ [value]]> v.

(** The body of [Encode]'s outer loop for one key: one [key=value] item
    per value of the key, each preceded by [&] unless the buffer is
    empty. *)
Definition encode_key (v : Values) (buf : string) (k : string) : string :=
  let keyEscaped := QueryEscape k in
  foldl (fun buf val =>
           (if 0 <? Z.of_nat (String.length buf) then buf +:+ "&" else buf)
             +:+ keyEscaped +:+ "=" +:+ QueryEscape val)
        buf (default [] (v !! k)).

(** [v.Encode()]: the keys are collected by a [range] over the map (in the
    order [keys_visited]), sorted by Go's [<] on strings (bytewise
    lexicographic, [String.le]), and written in sorted order. *)
Definition Encode (keys_visited : list string) (v : Values) : string :=
  if bool_decide (size v = 0%nat) then ""
  else
    let keys := merge_sort String.le keys_visited in
    foldl (encode_key v) "" keys.

End url.


(** ** Go library: [fmt] *)

Module fmt.

(** [fmt.Sprint(v)] of one string operand is the string. *)
Definition Sprint (v : string) : string := v.

(** [fmt.Sprintf("%s?%s", a, b)] *)
Definition Sprintf_s_question_s (a b : string) : string := a +:+ "?" +:+ b.

End fmt.

(** ** The transport: fasthttp

    fasthttp is not part of the package.  Its request and response carriers
    are embedded as far as [Do] drives them: the request line, the content
    type, the header list and the body of a request; the status code, the
    body and the headers of a response.  fasthttp keeps some more request
    headers in fields of their own (Host, User-Agent, Cookie, ...); none of
    them reads or writes the content type, and here they stay with the
    other headers in [h]. *)

Module fasthttp.

Definition toUpper (c : ascii) : ascii :=
  if url.byte_in "a" "z" c then ascii_of_N (N_of_ascii c - 32) else c.

Definition toLower (c : ascii) : ascii :=
  if url.byte_in "A" "Z" c then ascii_of_N (N_of_ascii c + 32) else c.

(** The loop of [normalizeHeaderKey] from index 1 on: a byte after [-] is
    put in upper case, every other byte in lower case. *)
Fixpoint normalizeTail (b : string) : string :=
  match b with
  | EmptyString => EmptyString
  | String c b' =>
      if Ascii.eqb c "-" then
        String c match b' with
                 | EmptyString => EmptyString
                 | String d b'' => String (toUpper d) (normalizeTail b'')
                 end
      else String (toLower c) (normalizeTail b')
  end.

(** [normalizeHeaderKey(b, false)]: the canonical spelling of a header
    name, as in [Content-Type]. *)
Definition normalizeHeaderKey (b : string) : string :=
  match b with
  | EmptyString => EmptyString
  | String c b' => String (toUpper c) (normalizeTail b')
  end.

Definition strContentType : string := "Content-Type".

Record RequestHeader := {
  method : string;
  requestURI : string;
  hContentType : string;
  h : list (string * string)
}.

Record Request := {
  Header : RequestHeader;
  body : string
}.

(** [AcquireRequest()]: a request carrier from the pool, reset. *)
Definition AcquireRequest : Request :=
  {| Header := {| method := ""; requestURI := ""; hContentType := ""; h := [] |};
     body := "" |}.

Definition SetRequestURI (u : string) (req : Request) : Request :=
  {| Header := {| method := method (Header req); requestURI := u;
                  hContentType := hContentType (Header req); h := h (Header req) |};
     body := body req |}.

Definition SetMethod (m : string) (hd : RequestHeader) : RequestHeader :=
  {| method := m; requestURI := requestURI hd;
     hContentType := hContentType hd; h := h hd |}.

Definition SetContentType (ct : string) (hd : RequestHeader) : RequestHeader :=
  {| method := method hd; requestURI := requestURI hd;
     hContentType := ct; h := h hd |}.

Definition SetBodyString (b : string) (req : Request) : Request :=
  {| Header := Header req; body := b |}.

(** [setArg]: the value of the first entry with this key is replaced; a key
    not yet present is appended. *)
Fixpoint setArg (args : list (string * string)) (key value : string)
  : list (string * string) :=
  match args with
  | [] => [(key, value)]
  | (k, v) :: args' =>
      if String.eqb k key then (k, value) :: args'
      else (k, v) :: setArg args' key value
  end.

(** [h.Set(key, value)] ([Set] is a keyword here): the key is normalized;
    the content type has its own field, every other header goes to the
    list. *)
Definition Set_ (key value : string) (hd : RequestHeader) : RequestHeader :=
  let k := normalizeHeaderKey key in
  if String.eqb k strContentType then SetContentType value hd
  else {| method := method hd; requestURI := requestURI hd;
          hContentType := hContentType hd; h := setArg (h hd) k value |}.

(** Lifting of the header setters to the request ([req.Header.F(...)]). *)
Definition onHeader (f : RequestHeader -> RequestHeader) (req : Request) : Request :=
  {| Header := f (Header req); body := body req |}.

(** The response carrier.  [visits] is the sequence of calls
    [f(key, value)] that [Header.VisitAll(f)] makes, in order: one per
    header the server returned. *)
Record Response := {
  statusCode : Z;
  respBody : string;
  visits : list (string * string)
}.

(** [res.StatusCode()]: an unset status code reads as 200. *)
Definition StatusCode_ (res : Response) : Z :=
  if statusCode res =? 0 then 200 else statusCode res.

(** [h.VisitAll(f)], for a visitor [f] that updates a state [S]. *)
Definition VisitAll {S : Type} (f : string -> string -> S -> S)
  (res : Response) (s : S) : S :=
  foldl (fun s kv => f kv.1 kv.2 s) s (visits res).

(** The errors a submission ends with. *)
Inductive error :=
| ErrTimeout
| ErrDialTimeout
| ErrNoFreeConns
| ErrConnectionClosed
| ErrOther (msg : string).

End fasthttp.

(** ** [mergeResponseHeaders] *)

Definition mergeResponseHeaders (res : fasthttp.Response) : gmap string string :=
  fasthttp.VisitAll (fun key value headers => <[key := value]> headers) res ∅.

(** ** [New] *)

(** The options [New] starts from. *)
Definition default_options : NewClientOptions :=
  {| BaseURL := "";
     DefaultContentType := "application/json";
     Timeout := 30 * time.Second;
     Attemps := 5;
     TLSCert := "" |}.

(** [New(opts ...*NewClientOptions)].  The variadic argument is a list of
    pointers, [None] a nil pointer; reading a field through a nil pointer
    panics, which is the result [None]. *)
Definition New (opts : list (option NewClientOptions)) : option Client :=
  let opt := Some default_options in
  let opt := match opts with o :: _ => o | [] => opt end in
  match opt with
  | None => None
  | Some opt =>
      Some {| ClientEngine := {| MaxIdemponentCallAttempts := Attemps opt |};
              baseURL := BaseURL opt;
              contentType := DefaultContentType opt;
              timeout := Timeout opt |}
  end.

(** ** [Do] *)

(** [context.Context], as far as a caller can tell two contexts apart: the
    deadline, whether it is cancelled, and the values it carries. *)
Record Context := {
  ctx_deadline : option time.Time;
  ctx_cancelled : bool;
  ctx_values : gmap string string
}.

(** [DoOptions].  Both fields are pointers: [None] is nil.  (The field
    [Request] of the source is [DoRequest] here, the name being taken by the
    type.) *)
Record DoOptions := {
  StartTime : option time.Time;
  DoRequest : option Request
}.

(** The caller and [Do] share the [DoOptions] object through a pointer: the
    store maps addresses to objects, and [None] is the nil pointer. *)
Definition ptr : Type := option positive.

Abbreviation Store := (gmap positive DoOptions).

Definition deref (p : ptr) (st : Store) : option DoOptions :=
  p ≫= fun a => st !! a.

Definition assign (p : ptr) (o : DoOptions) (st : Store) : Store :=
  match p with
  | Some a => <[a := o]> st
  | None => st
  end.

(** What [Do] does not decide: the readings of the clock, what the
    transport answers, and the order in which each [range] loop visits its
    map. *)
Record Env := {
  Now_entry : time.Time;
  Now_end : time.Time;
  DoTimeout : fasthttp_Client -> fasthttp.Request -> Duration ->
              fasthttp.error + fasthttp.Response;
  range_Query : gmap string string -> list (string * string);
  range_Values : url.Values -> list string;
  range_Headers : gmap string string -> list (string * string)
}.

(** A [range] loop visits every entry of its map once, in some order. *)
Record env_ok (E : Env) : Prop := {
  range_Query_ok : forall m, range_Query E m ≡ₚ map_to_list m;
  range_Values_ok : forall v, range_Values E v ≡ₚ (map_to_list v).*1;
  range_Headers_ok : forall m, range_Headers E m ≡ₚ map_to_list m
}.

(** [int32(n)]: two's complement wrap-around. *)
Definition int32 (z : Z) : Z := (z + 2 ^ 31) mod 2 ^ 32 - 2 ^ 31.

(** How a call ends: with a panic, or with the two results of [Do]
    ([None] is nil). *)
Inductive Outcome :=
| Panic
| Return (res : option Response) (err : option fasthttp.error).

(** One call of [Do]: the store it leaves, the submission it made to the
    transport (engine, request carrier, timeout), and how it ended. *)
Record Run := {
  store : Store;
  submitted : option (fasthttp_Client * fasthttp.Request * Duration);
  outcome : Outcome
}.

(** The final URL: [getURL], then the query parameters. *)
Definition finalURL (E : Env) (h : Client) (r : Request) : string :=
  let u := getURL h (URL r) in
  let qp := foldl (fun qp kv => url.Add kv.1 (fmt.Sprint kv.2) qp)
                  (∅ : url.Values) (range_Query E (Query r)) in
  if bool_decide (0 < size qp)%nat
  then fmt.Sprintf_s_question_s u (url.Encode (range_Values E qp) qp)
  else u.

(** The effective content type. *)
Definition cType (h : Client) (r : Request) : string :=
  if String.eqb (ContentType r) "" then contentType h else ContentType r.

(** The request carrier before the loop over [Request.Headers]. *)
Definition carrier_before_headers (E : Env) (h : Client) (r : Request)
  : fasthttp.Request :=
  let req := fasthttp.AcquireRequest in
  let req := fasthttp.SetRequestURI (finalURL E h r) req in
  let req := fasthttp.onHeader (fasthttp.SetMethod (Method r)) req in
  let req := fasthttp.onHeader (fasthttp.SetContentType (cType h r)) req in
  fasthttp.SetBodyString (Body r) req.

(** The request carrier [Do] submits. *)
Definition carrier (E : Env) (h : Client) (r : Request) : fasthttp.Request :=
  foldl (fun req kv => fasthttp.onHeader (fasthttp.Set_ kv.1 kv.2) req)
        (carrier_before_headers E h r) (range_Headers E (Headers r)).

Definition Do (E : Env) (ctx : Context) (h : Client) (opts : ptr) (st : Store)
  : Run :=
  match deref opts st with
  | None => {| store := st; submitted := None; outcome := Panic |}
  | Some o =>
      let n := Now_entry E in
      let st :=
        match StartTime o with
        | None => assign opts {| StartTime := Some n; DoRequest := DoRequest o |} st
        | Some _ => st
        end in
      let start := default n (StartTime o) in
      match DoRequest o with
      | None => {| store := st; submitted := None; outcome := Panic |}
      | Some r =>
          let req := carrier E h r in
          let sub := Some (ClientEngine h, req, timeout h) in
          match DoTimeout E (ClientEngine h) req (timeout h) with
          | inl err =>
              {| store := st; submitted := sub; outcome := Return None (Some err) |}
          | inr res =>
              let endNow := Now_end E in
              {| store := st; submitted := sub;
                 outcome :=
                   Return (Some {| StatusCode := int32 (fasthttp.StatusCode_ res);
                                   RespBody := fasthttp.respBody res;
                                   RespHeaders := mergeResponseHeaders res;
                                   Time := getResponseTime start endNow |})
                          None |}
          end
      end
  end.

(** ** The query string, stated from the specification

    What the specification says of the query: every entry of
    [Request.Query] is one percent-encoded parameter [key=value], the
    parameters are joined by [&], and nothing depends on the order in which
    the map is visited.  [query_string] writes the parameters in the order
    of their keys. *)

Definition encode_param (kv : string * string) : string :=
  url.QueryEscape kv.1 +:+ "=" +:+ url.QueryEscape kv.2.

Definition query_params (q : gmap string string) : list (string * string) :=
  (fun k => (k, default "" (q !! k))) <$> merge_sort String.le (map_to_list q).*1.

Definition query_string (q : gmap string string) : string :=
  String.concat "&" (encode_param <$> query_params q).

(** The number of bytes [c] in [s]. *)
Fixpoint count_byte (c : ascii) (s : string) : nat :=
  match s with
  | EmptyString => 0
  | String a s' => (if Ascii.eqb a c then 1 else 0) + count_byte c s'
  end.

(** Reading a parameter back: [strings.Cut] at the first [=], and the
    inverse of [QueryEscape] on each side ([url.QueryUnescape] on
    well-formed input; an escape that is cut short, which Go rejects, is
    copied). *)

Fixpoint cut_at (c : ascii) (s : string) : string * string :=
  match s with
  | EmptyString => (EmptyString, EmptyString)
  | String a s' =>
      if Ascii.eqb a c then (EmptyString, s')
      else let (before, after) := cut_at c s' in (String a before, after)
  end.

Definition unhex (c : ascii) : N :=
  if url.byte_in "0" "9" c then N_of_ascii c - 48
  else if url.byte_in "A" "F" c then N_of_ascii c - 55
  else if url.byte_in "a" "f" c then N_of_ascii c - 87
  else 0.

Fixpoint QueryUnescape (s : string) : string :=
  match s with
  | EmptyString => EmptyString
  | String c s' =>
      if Ascii.eqb c "%" then
        match s' with
        | String a (String b rest) =>
            String (ascii_of_N (16 * unhex a + unhex b)) (QueryUnescape rest)
        | _ => String c (QueryUnescape s')
        end
      else if Ascii.eqb c "+" then String " " (QueryUnescape s')
      else String c (QueryUnescape s')
  end.

Definition decode_param (s : string) : string * string :=
  let (k, v) := cut_at "=" s in (QueryUnescape k, QueryUnescape v).

(** ** Fixtures for the examples *)

Definition api_client : Client :=
  {| ClientEngine := {| MaxIdemponentCallAttempts := 5 |};
     baseURL := "https://api.example.com";
     contentType := "application/json";
     timeout := 30 * time.Second |}.

(** An environment whose clock reads [t0] at entry and [t1] at the end,
    whose transport answers [answer], and whose loops visit a map in the
    order of [map_to_list]. *)
Definition fixed_env (t0 t1 : time.Time)
  (answer : fasthttp.error + fasthttp.Response) : Env :=
  {| Now_entry := t0;
     Now_end := t1;
     DoTimeout := fun _ _ _ => answer;
     range_Query := map_to_list;
     range_Values := fun v => (map_to_list v).*1;
     range_Headers := map_to_list |}.

(** The same, with every map visited in the opposite order. *)
Definition reversed_env (t0 t1 : time.Time)
  (answer : fasthttp.error + fasthttp.Response) : Env :=
  {| Now_entry := t0;
     Now_end := t1;
     DoTimeout := fun _ _ _ => answer;
     range_Query := fun m => reverse (map_to_list m);
     range_Values := fun v => reverse (map_to_list v).*1;
     range_Headers := fun m => reverse (map_to_list m) |}.

(** Clock readings: entry, and 12.5 ms later. *)
Definition t_entry : time.Time :=
  {| time.wall := 1700000000000000000; time.mono := Some 40000000 |}.

Definition t_end : time.Time :=
  {| time.wall := 1700000000012500000; time.mono := Some 52500000 |}.


Definition ok_response : fasthttp.Response :=
  {| fasthttp.statusCode := 200;
     fasthttp.respBody := "{}";
     fasthttp.visits := [("Content-Type", "application/json");
                         ("X-Trace", "a"); ("X-Trace", "b")] |}.

Definition background : Context :=
  {| ctx_deadline := None; ctx_cancelled := false; ctx_values := ∅ |}.

Definition cancelled : Context :=
  {| ctx_deadline := Some t_entry; ctx_cancelled := true; ctx_values := ∅ |}.

Definition get_users : Request :=
  {| URL := "/users"; Method := GET; ContentType := "";
     Headers := ∅; Query := {[ "id" := "42" ]}; Body := "" |}.

(** A store with one [DoOptions] object, at address 1. *)
Definition store_of (o : DoOptions) : Store := {[ 1%positive := o ]}.

(** A request with a content type of its own and a header that names the
    content type again, in lower case. *)
Definition post_xml : Request :=
  {| URL := "https://other.example.com/x"; Method := POST;
     ContentType := "text/plain";
     Headers := {[ "content-type" := "text/xml" ]};
     Query := ∅; Body := "{}" |}.

(** Two spellings of the content type among the headers. *)
Definition post_twice : Request :=
  {| URL := "/x"; Method := PATH; ContentType := "";
     Headers := {[ "content-type" := "text/xml"; "CONTENT-TYPE" := "text/csv" ]};
     Query := ∅; Body := "" |}.

(** A path that carries a query string of its own. *)
Definition search : Request :=
  {| URL := "/search?x=1"; Method := GET; ContentType := "";
     Headers := ∅;
     Query := {[ "q" := "a b&c"; "lang" := "pt" ]}; Body := "" |}.

(** ** Further vocabulary for the properties *)

(** Every byte of [s] satisfies [P]. *)
Fixpoint string_forall (P : ascii -> bool) (s : string) : bool :=
  match s with
  | EmptyString => true
  | String a s' => P a && string_forall P s'
  end.

(** The bytes a query string is made of: the unreserved ones, the escape
    marks [%] and [+], and the separators [=] and [&]. *)
Definition query_byte (c : ascii) : bool :=
  url.byte_in "a" "z" c || url.byte_in "A" "Z" c || url.byte_in "0" "9" c
  || bool_decide (c ∈ ["-"; "_"; "."; "~"; "%"; "+"; "="; "&"]%char).

(** Reading a query string back: [strings.Split] at every [c], then
    [decode_param] on each piece, the pieces collected in a map. *)
Fixpoint split_on (c : ascii) (s : string) : list string :=
  match s with
  | EmptyString => [EmptyString]
  | String a s' =>
      if Ascii.eqb a c then EmptyString :: split_on c s'
      else match split_on c s' with
           | piece :: pieces => String a piece :: pieces
           | [] => [String a EmptyString]
           end
  end.

Definition parse_query (s : string) : gmap string string :=
  list_to_map (decode_param <$> split_on "&" s).

(** Clock readings of a second call: entry 2 s after [t_entry], end 40 ms
    after that. *)
Definition t_entry2 : time.Time :=
  {| time.wall := 1700000002000000000; time.mono := Some 2040000000 |}.

Definition t_end2 : time.Time :=
  {| time.wall := 1700000002040000000; time.mono := Some 2080000000 |}.

(** ** Proof automation *)

(** Case analysis on the 256 values of a byte. *)
Ltac each_byte c := destruct c as [[] [] [] [] [] [] [] []].

(** * Properties *)

(** ** URL resolution *)

Lemma prefix_iff (p s : string) :
  String.prefix p s = true <-> exists rest, s = p +:+ rest.
Proof.
  revert s. induction p as [|a p IH]; intros s.
  - split; [by exists s | by destruct s].
  - destruct s as [|b s]; cbn -[ascii_dec].
    + split; [done | by intros [rest Hr]].
    + destruct (ascii_dec a b) as [->|Hne].
      * rewrite IH. split; intros [rest Hr]; exists rest.
        -- by rewrite Hr.
        -- by injection Hr.
      * split; [done | intros [rest Hr]; by injection Hr].
Qed.

Lemma HasPrefix_http_iff (s : string) :
  strings.HasPrefix s "http" = true <-> exists rest, s = "http" +:+ rest.
Proof. apply prefix_iff. Qed.

Lemma HasPrefix_https_http (s : string) :
  strings.HasPrefix s "https" = true -> strings.HasPrefix s "http" = true.
Proof.
  unfold strings.HasPrefix. rewrite !prefix_iff.
  intros [rest ->]. by exists ("s" +:+ rest).
Qed.

Lemma length_app (s t : string) :
  String.length (s +:+ t) = (String.length s + String.length t)%nat.
Proof. induction s as [|a s IH]; [done|]. cbn. by rewrite <- IH. Qed.

Lemma getURL_unfold (h : Client) (rURL : string) :
  getURL h rURL =
  if strings.HasPrefix rURL "http" then rURL else baseURL h +:+ rURL.
Proof.
  unfold getURL.
  destruct (strings.HasPrefix rURL "http") eqn:Hp; [done|].
  destruct (strings.HasPrefix rURL "https") eqn:Hs; [|done].
  apply HasPrefix_https_http in Hs. congruence.
Qed.

(** C1.  A request URL that begins with the four bytes [http] (whatever
    follows them) is returned verbatim by [getURL], whatever the base URL
    is; every other request URL is returned with the base URL put before
    it, byte for byte, nothing inserted and nothing removed. *)
Theorem getURL_absolute_or_concatenated (h : Client) (rURL : string) :
  ((exists rest, rURL = "http" +:+ rest) -> getURL h rURL = rURL) /\
  (~ (exists rest, rURL = "http" +:+ rest) ->
   getURL h rURL = baseURL h +:+ rURL /\
   String.length (getURL h rURL) =
     (String.length (baseURL h) + String.length rURL)%nat).
Proof.
  rewrite getURL_unfold. split.
  - intros Hp. apply HasPrefix_http_iff in Hp. by rewrite Hp.
  - intros Hn. destruct (strings.HasPrefix rURL "http") eqn:Hp.
    + exfalso. apply Hn. by apply HasPrefix_http_iff.
    + split; [done|]. apply length_app.
Qed.

Example getURL_relative : getURL api_client "/users" = "https://api.example.com/users".
Proof. reflexivity. Qed.

Example getURL_other_host :
  getURL api_client "https://other.example.com/x" = "https://other.example.com/x".
Proof. reflexivity. Qed.

(** Not a scheme, but four bytes [http] all the same. *)
Example getURL_httpfoo : getURL api_client "httpfoo/bar" = "httpfoo/bar".
Proof. reflexivity. Qed.

(** The test is on bytes as written: an upper-case scheme is relative. *)
Example getURL_upper_case :
  getURL api_client "HTTP://x.example.com" = "https://api.example.comHTTP://x.example.com".
Proof. reflexivity. Qed.

Example getURL_no_separator :
  getURL {| ClientEngine := {| MaxIdemponentCallAttempts := 5 |};
            baseURL := "https://api.example.com/";
            contentType := ""; timeout := 0 |} "/users"
  = "https://api.example.com//users" /\
  getURL api_client "users" = "https://api.example.comusers".
Proof. split; reflexivity. Qed.

Lemma getURL_absolute_or_concatenated_witness :
  ((exists rest, "httpfoo/bar" = "http" +:+ rest) /\
   getURL api_client "httpfoo/bar" = "httpfoo/bar") /\
  (~ (exists rest, "/users" = "http" +:+ rest) /\
   getURL api_client "/users" = baseURL api_client +:+ "/users").
Proof.
  split.
  - split; [by exists "foo/bar"|].
    apply (getURL_absolute_or_concatenated api_client "httpfoo/bar").
    by exists "foo/bar".
  - assert (Hn : ~ (exists rest, "/users" = "http" +:+ rest)).
    { intros [rest Hr]. discriminate Hr. }
    split; [exact Hn|].
    apply (getURL_absolute_or_concatenated api_client "/users"). exact Hn.
Defined.

(** ** What the header loop leaves alone *)

Section header_loop.

Variables (l : list (string * string)).

#[local] Abbreviation loop req :=
  (foldl (fun req kv => fasthttp.onHeader (fasthttp.Set_ kv.1 kv.2) req) req l).

Lemma Set_method k v hd :
  fasthttp.method (fasthttp.Set_ k v hd) = fasthttp.method hd.
Proof. unfold fasthttp.Set_. by destruct (String.eqb _ _). Qed.

Lemma Set_requestURI k v hd :
  fasthttp.requestURI (fasthttp.Set_ k v hd) = fasthttp.requestURI hd.
Proof. unfold fasthttp.Set_. by destruct (String.eqb _ _). Qed.

Lemma loop_frame req :
  fasthttp.method (fasthttp.Header (loop req)) = fasthttp.method (fasthttp.Header req) /\
  fasthttp.requestURI (fasthttp.Header (loop req)) = fasthttp.requestURI (fasthttp.Header req) /\
  fasthttp.body (loop req) = fasthttp.body req.
Proof.
  revert req. induction l as [|[k v] l' IH]; intros req; [done|].
  cbn [foldl]. destruct (IH (fasthttp.onHeader (fasthttp.Set_ (k, v).1 (k, v).2) req))
    as (-> & -> & ->).
  cbn. by rewrite Set_method, Set_requestURI.
Qed.

End header_loop.

Lemma carrier_method E h r :
  fasthttp.method (fasthttp.Header (carrier E h r)) = Method r.
Proof. unfold carrier. by rewrite (proj1 (loop_frame _ _)). Qed.

Lemma carrier_requestURI E h r :
  fasthttp.requestURI (fasthttp.Header (carrier E h r)) = finalURL E h r.
Proof. unfold carrier. by rewrite (proj1 (proj2 (loop_frame _ _))). Qed.

Lemma carrier_body E h r : fasthttp.body (carrier E h r) = Body r.
Proof. unfold carrier. by rewrite (proj2 (proj2 (loop_frame _ _))). Qed.

(** ** The constructor *)

(** C9.  An options argument replaces the defaults as a whole: every field
    of the client is read from the first options struct, so a field left at
    its zero value gives an empty default content type, a zero timeout or a
    zero attempt count; the defaults ([application/json], 30 s, 5) are what
    [New] uses when it is called with no argument. *)
Theorem New_replaces_defaults (o : NewClientOptions) (rest : list (option NewClientOptions)) :
  (exists c, New (Some o :: rest) = Some c /\
     baseURL c = BaseURL o /\
     contentType c = DefaultContentType o /\
     timeout c = Timeout o /\
     MaxIdemponentCallAttempts (ClientEngine c) = Attemps o /\
     (DefaultContentType o = "" -> contentType c = "") /\
     (Timeout o = 0 -> timeout c = 0) /\
     (Attemps o = 0 -> MaxIdemponentCallAttempts (ClientEngine c) = 0)) /\
  New [] = Some {| ClientEngine := {| MaxIdemponentCallAttempts := 5 |};
                   baseURL := "";
                   contentType := "application/json";
                   timeout := 30000000000 |}.
Proof.
  split; [|done]. eexists. split; [reflexivity|]. cbn.
  repeat split; congruence.
Qed.

(** Only the base URL given: the other fields are not filled in. *)
Example New_base_only :
  New [Some {| BaseURL := "https://api.example.com"; DefaultContentType := "";
               Timeout := 0; Attemps := 0; TLSCert := "" |}]
  = Some {| ClientEngine := {| MaxIdemponentCallAttempts := 0 |};
            baseURL := "https://api.example.com";
            contentType := ""; timeout := 0 |}.
Proof. reflexivity. Qed.

(** A nil options pointer is dereferenced. *)
Example New_nil : New [None] = None.
Proof. reflexivity. Qed.

(** ** The execution path *)

(** [Do] with a live options object and a request. *)
Lemma Do_unfold E ctx h p st o r :
  deref p st = Some o -> DoRequest o = Some r ->
  Do E ctx h p st =
  let st' := match StartTime o with
             | None => assign p {| StartTime := Some (Now_entry E);
                                   DoRequest := DoRequest o |} st
             | Some _ => st
             end in
  let sub := Some (ClientEngine h, carrier E h r, timeout h) in
  match DoTimeout E (ClientEngine h) (carrier E h r) (timeout h) with
  | inl err => {| store := st'; submitted := sub; outcome := Return None (Some err) |}
  | inr res =>
      {| store := st'; submitted := sub;
         outcome :=
           Return (Some {| StatusCode := int32 (fasthttp.StatusCode_ res);
                           RespBody := fasthttp.respBody res;
                           RespHeaders := mergeResponseHeaders res;
                           Time := getResponseTime
                                     (default (Now_entry E) (StartTime o)) (Now_end E) |})
                  None |}
  end.
Proof. intros Ho Hr. unfold Do. by rewrite Ho, Hr. Qed.

(** What [Do] hands to the transport. *)
Lemma Do_submitted E ctx h p st o r :
  deref p st = Some o -> DoRequest o = Some r ->
  submitted (Do E ctx h p st) = Some (ClientEngine h, carrier E h r, timeout h).
Proof.
  intros Ho Hr. rewrite (Do_unfold _ _ _ _ _ _ _ Ho Hr). cbn zeta.
  by destruct (DoTimeout _ _ _ _).
Qed.

(** The two results are never both present. *)
Lemma Do_never_both E ctx h p st res err :
  outcome (Do E ctx h p st) <> Return (Some res) (Some err).
Proof.
  unfold Do. destruct (deref p st) as [o|]; [|done].
  destruct (DoRequest o) as [r|]; [|done].
  by destruct (DoTimeout _ _ _ _).
Qed.

(** ** The method constants *)

(** C6.  The fifth constant, [PATH], is the string [POST], the same value
    as the constant [POST]; a request whose method is [PATH] is submitted
    with the method string [POST]; and the five constants have four
    distinct values, [GET], [POST], [PUT] and [DELETE]. *)
Theorem PATH_is_POST :
  PATH = "POST" /\ PATH = POST /\
  HTTPMethod_constants !! 3%nat = Some PATH /\
  (forall E ctx h p st o r,
     deref p st = Some o -> DoRequest o = Some r -> Method r = PATH ->
     exists req,
       submitted (Do E ctx h p st) = Some (ClientEngine h, req, timeout h) /\
       fasthttp.method (fasthttp.Header req) = "POST") /\
  remove_dups HTTPMethod_constants = ["GET"; "PUT"; "POST"; "DELETE"] /\
  (list_to_set HTTPMethod_constants : gset string) = {["GET"; "POST"; "PUT"; "DELETE"]} /\
  size (list_to_set HTTPMethod_constants : gset string) = 4%nat.
Proof.
  split; [done|]. split; [done|]. split; [done|]. split.
  { intros E ctx h p st o r Ho Hr Hm. exists (carrier E h r).
    split; [by apply (Do_submitted E ctx h p st o r)|].
    by rewrite carrier_method, Hm. }
  split; [by vm_compute|].
  assert (Hs : (list_to_set HTTPMethod_constants : gset string)
               = {["GET"; "POST"; "PUT"; "DELETE"]}).
  { apply set_eq. intros x. unfold HTTPMethod_constants, POST, GET, PUT, PATH, DELETE.
    set_solver. }
  split; [exact Hs|]. rewrite Hs.
  rewrite !size_union, !size_singleton; [done|set_solver..].
Qed.

Lemma PATH_is_POST_witness :
  exists req,
    submitted (Do (fixed_env t_entry t_end (inr ok_response)) background api_client
                  (Some 1%positive)
                  (store_of {| StartTime := None; DoRequest := Some post_twice |}))
      = Some (ClientEngine api_client, req, timeout api_client) /\
    fasthttp.method (fasthttp.Header req) = "POST".
Proof.
  destruct PATH_is_POST as (_ & _ & _ & Hsub & _).
  apply (Hsub (fixed_env t_entry t_end (inr ok_response)) background api_client
              (Some 1%positive)
              (store_of {| StartTime := None; DoRequest := Some post_twice |})
              {| StartTime := None; DoRequest := Some post_twice |} post_twice);
    reflexivity.
Defined.

(** ** Transport failure *)

(** C4.  When the transport's submission fails with [err], [Do] returns no
    response together with [err] itself; the carrier was submitted once,
    with the client's timeout; and no call returns both a response and an
    error. *)
Theorem Do_transport_failure E ctx h p st o r err :
  deref p st = Some o -> DoRequest o = Some r ->
  DoTimeout E (ClientEngine h) (carrier E h r) (timeout h) = inl err ->
  outcome (Do E ctx h p st) = Return None (Some err) /\
  submitted (Do E ctx h p st) = Some (ClientEngine h, carrier E h r, timeout h) /\
  (forall E' ctx' h' p' st' res' err',
     outcome (Do E' ctx' h' p' st') <> Return (Some res') (Some err')).
Proof.
  intros Ho Hr Ht. rewrite (Do_unfold _ _ _ _ _ _ _ Ho Hr). cbn zeta.
  rewrite Ht. repeat split. intros. apply Do_never_both.
Qed.

Lemma Do_transport_failure_witness :
  outcome (Do (fixed_env t_entry t_end (inl fasthttp.ErrTimeout)) background
              api_client (Some 1%positive)
              (store_of {| StartTime := None; DoRequest := Some get_users |}))
  = Return None (Some fasthttp.ErrTimeout).
Proof.
  eapply (Do_transport_failure
            (fixed_env t_entry t_end (inl fasthttp.ErrTimeout)) background
            api_client (Some 1%positive)
            (store_of {| StartTime := None; DoRequest := Some get_users |})
            {| StartTime := None; DoRequest := Some get_users |} get_users
            fasthttp.ErrTimeout); reflexivity.
Defined.

(** ** The context *)

(** C7.  The context is inert: two calls that differ in the context alone
    make the same submission to the transport, leave the same store and end
    the same way; the timeout handed to the transport is the client's. *)
Theorem Do_context_inert E (ctx1 ctx2 : Context) h p st :
  Do E ctx1 h p st = Do E ctx2 h p st /\
  match submitted (Do E ctx1 h p st) with
  | Some (_, _, d) => d = timeout h
  | None => True
  end.
Proof.
  split; [reflexivity|]. unfold Do.
  destruct (deref p st) as [o|]; [|done].
  destruct (DoRequest o) as [r|]; [|done].
  by destruct (DoTimeout _ _ _ _).
Qed.

(** A cancelled context with a deadline in the past changes nothing. *)
Example Do_cancelled_context :
  Do (fixed_env t_entry t_end (inr ok_response)) cancelled api_client (Some 1%positive)
     (store_of {| StartTime := None; DoRequest := Some get_users |})
  = Do (fixed_env t_entry t_end (inr ok_response)) background api_client (Some 1%positive)
       (store_of {| StartTime := None; DoRequest := Some get_users |}).
Proof. reflexivity. Qed.

(** ** The start time *)

(** The store [Do] leaves, whatever the request and the transport do. *)
Lemma Do_store E ctx h p st o :
  deref p st = Some o ->
  store (Do E ctx h p st) =
  match StartTime o with
  | None => assign p {| StartTime := Some (Now_entry E); DoRequest := DoRequest o |} st
  | Some _ => st
  end.
Proof.
  intros Ho. unfold Do. rewrite Ho.
  destruct (DoRequest o) as [r|]; [|done].
  by destruct (DoTimeout _ _ _ _).
Qed.

(** C10.  [Do] writes to its caller's options object: when [StartTime] is
    nil at entry, the object at the caller's address holds, after the call,
    a pointer to the time read at entry (and the request it held), however
    the call ends; when [StartTime] is not nil, the store is left as it
    was.  No other object of the store is touched. *)
Theorem Do_writes_StartTime E ctx h (a : positive) (st : Store) (o : DoOptions) :
  st !! a = Some o ->
  (StartTime o = None ->
     store (Do E ctx h (Some a) st) !! a
       = Some {| StartTime := Some (Now_entry E); DoRequest := DoRequest o |} /\
     store (Do E ctx h (Some a) st) <> st) /\
  (is_Some (StartTime o) -> store (Do E ctx h (Some a) st) = st) /\
  (forall b, b <> a -> store (Do E ctx h (Some a) st) !! b = st !! b).
Proof.
  intros Ha. rewrite (Do_store E ctx h (Some a) st o Ha).
  split; [|split].
  - intros Hn. rewrite Hn. cbn. rewrite lookup_insert_eq. split; [done|].
    intros Heq. apply (f_equal (fun m => m !! a)) in Heq.
    rewrite lookup_insert_eq, Ha in Heq.
    destruct o as [s q]. cbn in *. congruence.
  - by intros [t ->].
  - intros b Hb. destruct (StartTime o); [done|].
    cbn. by rewrite lookup_insert_ne.
Qed.

Lemma Do_writes_StartTime_witness :
  store (Do (fixed_env t_entry t_end (inl fasthttp.ErrTimeout)) background api_client
            (Some 1%positive)
            (store_of {| StartTime := None; DoRequest := Some get_users |}))
    !! 1%positive
  = Some {| StartTime := Some t_entry; DoRequest := Some get_users |}.
Proof.
  apply (Do_writes_StartTime
           (fixed_env t_entry t_end (inl fasthttp.ErrTimeout)) background api_client
           1%positive
           (store_of {| StartTime := None; DoRequest := Some get_users |})
           {| StartTime := None; DoRequest := Some get_users |});
    reflexivity.
Defined.

(** The write is made before the request is read: it survives a panic. *)
Example Do_nil_request :
  Do (fixed_env t_entry t_end (inr ok_response)) background api_client (Some 1%positive)
     (store_of {| StartTime := None; DoRequest := None |})
  = {| store := store_of {| StartTime := Some t_entry; DoRequest := None |};
       submitted := None; outcome := Panic |}.
Proof. reflexivity. Qed.

(** ** The response time *)

Lemma int64_lt_range z : - 2 ^ 63 <= time.int64 z < 2 ^ 63.
Proof. unfold time.int64. pose proof (Z.mod_pos_bound (z + 2 ^ 63) (2 ^ 64)). lia. Qed.




Lemma int64_id z : - 2 ^ 63 <= z < 2 ^ 63 -> time.int64 z = z.
Proof.
  intros H. unfold time.int64. rewrite Z.mod_small; lia.
Qed.

Lemma subMono_exact t u :
  time.minDuration <= t - u <= time.maxDuration -> time.subMono t u = t - u.
Proof.
  unfold time.subMono, time.minDuration, time.maxDuration. intros H. cbn zeta.
  rewrite int64_id by lia. rewrite !Z.gtb_ltb.
  destruct (Z.ltb_spec (t - u) 0), (Z.ltb_spec u t), (Z.ltb_spec 0 (t - u)),
    (Z.ltb_spec t u); cbn [andb]; lia.
Qed.

Lemma subWall_exact t u :
  time.minDuration <= t - u <= time.maxDuration -> time.subWall t u = t - u.
Proof.
  unfold time.subWall, time.minDuration, time.maxDuration. intros H. cbn zeta.
  rewrite Z.gtb_ltb.
  destruct (Z.ltb_spec (2 ^ 63 - 1) (t - u)), (Z.ltb_spec (t - u) (- 2 ^ 63)); lia.
Qed.

Lemma Sub_exact (t u : time.Time) :
  time.minDuration <= time.elapsed u t <= time.maxDuration ->
  time.Sub t u = time.elapsed u t.
Proof.
  unfold time.elapsed, time.Sub.
  destruct (time.mono t), (time.mono u); auto using subMono_exact, subWall_exact.
Qed.





(** A start time too far back (here Go's zero [time.Time], the year 1, on
    a wall clock that counts from 1970): the difference is cut to the
    largest [Duration], some 292 years. *)
Example getResponseTime_saturated :
  getResponseTime {| time.wall := -62135596800000000000; time.mono := None |} t_end
  = 9223372036854.
Proof. reflexivity. Qed.

Example getResponseTime_entry : getResponseTime t_entry t_end = 12.
Proof. reflexivity. Qed.

(** ** The response headers *)

Section visiting.

Implicit Types (l : list (string * string)) (m : gmap string string).

#[local] Abbreviation visit m l :=
  (foldl (fun (s : gmap string string) kv => <[kv.1 := kv.2]> s) m l).

Lemma visit_snoc m l k v : visit m (l ++ [(k, v)]) = <[k := v]> (visit m l).
Proof. by rewrite foldl_app. Qed.

Lemma visit_absent m l k : k ∉ l.*1 -> visit m l !! k = m !! k.
Proof.
  induction l as [|[k' v'] l IH] using rev_ind; [done|].
  rewrite visit_snoc, fmap_app, not_elem_of_app. cbn. intros [Hl Hk].
  rewrite lookup_insert_ne by set_solver. by apply IH.
Qed.

Lemma visit_last m l1 k v l2 :
  k ∉ l2.*1 -> visit m (l1 ++ (k, v) :: l2) !! k = Some v.
Proof.
  intros Hk. replace (l1 ++ (k, v) :: l2) with ((l1 ++ [(k, v)]) ++ l2)
    by by rewrite <- app_assoc.
  rewrite foldl_app.
  rewrite (visit_absent _ l2 k Hk).
  rewrite (visit_snoc m l1 k v). apply lookup_insert_eq.
Qed.

Lemma visit_is_Some m l k :
  is_Some (visit m l !! k) <-> k ∈ l.*1 \/ is_Some (m !! k).
Proof.
  induction l as [|[k' v'] l IH] using rev_ind.
  - cbn. set_solver.
  - rewrite visit_snoc, fmap_app, elem_of_app. cbn.
    destruct (decide (k' = k)) as [->|Hne].
    + rewrite lookup_insert_eq. split; [set_solver|eauto].
    + rewrite lookup_insert_ne, IH by done. set_solver.
Qed.

Lemma visit_Some m l k v :
  visit m l !! k = Some v -> (k, v) ∈ l \/ m !! k = Some v.
Proof.
  induction l as [|[k' v'] l IH] using rev_ind; [by right|].
  rewrite visit_snoc, elem_of_app.
  destruct (decide (k' = k)) as [->|Hne].
  - rewrite lookup_insert_eq. intros [= ->]. left. right. set_solver.
  - rewrite lookup_insert_ne by done. intros H. destruct (IH H); auto.
Qed.

End visiting.

Lemma mergeResponseHeaders_visits res :
  mergeResponseHeaders res =
  foldl (fun s kv => <[kv.1 := kv.2]> s) ∅ (fasthttp.visits res).
Proof. reflexivity. Qed.

(** C8.  On success, [Response.Headers] is the map built by visiting the
    headers the server returned, in order, and storing each value under its
    key: a key is in the map exactly when it was visited, every value of
    the map is one that was visited with its key, and of the values visited
    with one key the map keeps the last. *)
Theorem Do_response_headers E ctx h p st o r res :
  deref p st = Some o -> DoRequest o = Some r ->
  DoTimeout E (ClientEngine h) (carrier E h r) (timeout h) = inr res ->
  exists resp,
    outcome (Do E ctx h p st) = Return (Some resp) None /\
    RespHeaders resp = mergeResponseHeaders res /\
    (forall k, k ∈ (fasthttp.visits res).*1 <-> is_Some (RespHeaders resp !! k)) /\
    (forall k v, RespHeaders resp !! k = Some v -> (k, v) ∈ fasthttp.visits res) /\
    (forall l1 k v l2,
       fasthttp.visits res = l1 ++ (k, v) :: l2 -> k ∉ l2.*1 ->
       RespHeaders resp !! k = Some v).
Proof.
  intros Ho Hr Ht. rewrite (Do_unfold _ _ _ _ _ _ _ Ho Hr). cbn zeta.
  rewrite Ht. eexists. split; [reflexivity|]. cbn [RespHeaders outcome].
  split; [done|]. rewrite mergeResponseHeaders_visits. repeat split.
  - intros Hk. apply visit_is_Some. by left.
  - intros Hs. apply visit_is_Some in Hs as [Hk|Hs]; [done|].
    rewrite lookup_empty in Hs. by destruct Hs.
  - intros k v Hkv. apply visit_Some in Hkv as [Hkv|Hkv]; [done|].
    by rewrite lookup_empty in Hkv.
  - intros l1 k v l2 -> Hk. by apply visit_last.
Qed.

Lemma Do_response_headers_witness :
  exists resp,
    outcome (Do (fixed_env t_entry t_end (inr ok_response)) background api_client
                (Some 1%positive)
                (store_of {| StartTime := None; DoRequest := Some get_users |}))
      = Return (Some resp) None /\
    RespHeaders resp !! "X-Trace" = Some "b" /\
    RespHeaders resp !! "Content-Type" = Some "application/json".
Proof.
  destruct (Do_response_headers
              (fixed_env t_entry t_end (inr ok_response)) background api_client
              (Some 1%positive)
              (store_of {| StartTime := None; DoRequest := Some get_users |})
              {| StartTime := None; DoRequest := Some get_users |} get_users
              ok_response eq_refl eq_refl eq_refl)
    as (resp & Hout & _ & _ & _ & Hlast).
  exists resp. split; [exact Hout|]. split.
  - apply (Hlast [("Content-Type", "application/json"); ("X-Trace", "a")]
             "X-Trace" "b" []); [reflexivity|]. cbn. set_solver.
  - apply (Hlast [] "Content-Type" "application/json"
             [("X-Trace", "a"); ("X-Trace", "b")]); [reflexivity|].
    cbn. set_solver.
Defined.

Example mergeResponseHeaders_repeated :
  mergeResponseHeaders ok_response
  = {[ "Content-Type" := "application/json"; "X-Trace" := "b" ]}.
Proof. by vm_compute. Qed.

(** ** The content type *)


Lemma Set_hContentType k v hd :
  fasthttp.hContentType (fasthttp.Set_ k v hd) =
  if decide (fasthttp.normalizeHeaderKey k = "Content-Type") then v
  else fasthttp.hContentType hd.
Proof.
  unfold fasthttp.Set_, fasthttp.strContentType.
  destruct (String.eqb_spec (fasthttp.normalizeHeaderKey k) "Content-Type");
    by case_decide.
Qed.

Section content_type_loop.

#[local] Abbreviation set_all req l :=
  (foldl (fun req kv => fasthttp.onHeader (fasthttp.Set_ kv.1 kv.2) req) req l).

#[local] Abbreviation names_content_type k :=
  (fasthttp.normalizeHeaderKey k = "Content-Type").

(** After the loop the content type is the one it started with, or the
    value of the last entry visited whose key, normalized, is
    [Content-Type]. *)
Lemma set_all_hContentType (l : list (string * string)) req :
  ((forall kv, kv ∈ l -> ~ names_content_type kv.1) /\
   fasthttp.hContentType (fasthttp.Header (set_all req l))
     = fasthttp.hContentType (fasthttp.Header req)) \/
  (exists l1 k v l2,
     l = l1 ++ (k, v) :: l2 /\ names_content_type k /\
     (forall kv, kv ∈ l2 -> ~ names_content_type kv.1) /\
     fasthttp.hContentType (fasthttp.Header (set_all req l)) = v).
Proof.
  induction l as [|[k v] l IH] using rev_ind.
  - left. split; [|done]. intros kv Hkv. by apply elem_of_nil in Hkv.
  - rewrite foldl_app. cbn [foldl fasthttp.onHeader fasthttp.Header fst snd].
    rewrite Set_hContentType. case_decide as Hk.
    + right. exists l, k, v, []. repeat split; [done|].
      intros kv Hkv. by apply elem_of_nil in Hkv.
    + destruct IH as [[Hnone Heq]|(l1 & k' & v' & l2 & -> & Hk' & Hl2 & Heq)].
      * left. split; [|done]. intros kv [Hkv|Hkv]%elem_of_app; [by apply Hnone|].
        apply list_elem_of_singleton in Hkv as ->. done.
      * right. exists l1, k', v', (l2 ++ [(k, v)]). rewrite <- app_assoc.
        repeat split; [done| |done].
        intros kv [Hkv|Hkv]%elem_of_app; [by apply Hl2|].
        apply list_elem_of_singleton in Hkv as ->. done.
Qed.

End content_type_loop.



Example content_type_default :
  fasthttp.hContentType
    (fasthttp.Header (carrier (fixed_env t_entry t_end (inr ok_response))
                              api_client get_users)) = "application/json".
Proof. reflexivity. Qed.

(** With two keys that name the content type, the one visited last wins. *)
Example content_type_last_visited :
  fasthttp.hContentType
    (fasthttp.Header (carrier (fixed_env t_entry t_end (inr ok_response))
                              api_client post_twice)) = "text/csv" /\
  fasthttp.hContentType
    (fasthttp.Header (carrier (reversed_env t_entry t_end (inr ok_response))
                              api_client post_twice)) = "text/xml".
Proof. split; by vm_compute. Qed.

(** ** Strings *)

Lemma app_cons a (s t : string) : String a s +:+ t = String a (s +:+ t).
Proof. reflexivity. Qed.

Lemma app_assoc_s (s t u : string) : (s +:+ t) +:+ u = s +:+ (t +:+ u).
Proof. induction s as [|a s IH]; [done|]. by rewrite !app_cons, IH. Qed.

Lemma app_nil_r_s (s : string) : s +:+ "" = s.
Proof. induction s as [|a s IH]; [done|]. by rewrite app_cons, IH. Qed.

Lemma count_byte_app c (s t : string) :
  count_byte c (s +:+ t) = (count_byte c s + count_byte c t)%nat.
Proof.
  induction s as [|a s IH]; [done|]. rewrite app_cons. cbn. rewrite IH. lia.
Qed.

Lemma cut_at_app c (s t : string) :
  count_byte c s = 0%nat -> cut_at c (s +:+ String c t) = (s, t).
Proof.
  induction s as [|a s IH].
  - intros _. change ("" +:+ String c t) with (String c t).
    cbn. by rewrite Ascii.eqb_refl.
  - rewrite app_cons. cbn. destruct (Ascii.eqb a c); [done|].
    intros H. by rewrite IH.
Qed.

(** ** Percent-encoding *)

Lemma escape_byte_no_question c : count_byte "?" (url.escape_byte c) = 0%nat.
Proof. each_byte c; reflexivity. Qed.

Lemma escape_byte_no_equals c : count_byte "=" (url.escape_byte c) = 0%nat.
Proof. each_byte c; reflexivity. Qed.

Lemma escape_byte_no_ampersand c : count_byte "&" (url.escape_byte c) = 0%nat.
Proof. each_byte c; reflexivity. Qed.

Lemma escape_byte_unescape c (t : string) :
  QueryUnescape (url.escape_byte c +:+ t) = String c (QueryUnescape t).
Proof. each_byte c; reflexivity. Qed.

(** The bytes [? = &] do not occur in an escaped string. *)
Lemma QueryEscape_count (d : ascii) (s : string) :
  d ∈ ["?"; "="; "&"]%char -> count_byte d (url.QueryEscape s) = 0%nat.
Proof.
  intros Hd. induction s as [|c s IH]; [done|].
  cbn [url.QueryEscape]. rewrite count_byte_app, IH, Nat.add_0_r.
  repeat (apply elem_of_cons in Hd as [->|Hd]);
    [apply escape_byte_no_question | apply escape_byte_no_equals
    | apply escape_byte_no_ampersand | by apply elem_of_nil in Hd].
Qed.

Lemma QueryUnescape_QueryEscape (s : string) :
  QueryUnescape (url.QueryEscape s) = s.
Proof.
  induction s as [|c s IH]; [done|].
  cbn [url.QueryEscape]. by rewrite escape_byte_unescape, IH.
Qed.

Lemma decode_encode_param (kv : string * string) :
  decode_param (encode_param kv) = kv.
Proof.
  destruct kv as [k v]. unfold decode_param, encode_param. cbn [fst snd].
  change ("=" +:+ url.QueryEscape v) with (String "=" (url.QueryEscape v)).
  rewrite cut_at_app by (apply QueryEscape_count; set_solver).
  by rewrite !QueryUnescape_QueryEscape.
Qed.

Lemma encode_param_inj kv1 kv2 : encode_param kv1 = encode_param kv2 -> kv1 = kv2.
Proof.
  intros H. apply (f_equal decode_param) in H.
  by rewrite !decode_encode_param in H.
Qed.

Lemma encode_param_count (d : ascii) kv :
  d ∈ ["?"; "&"]%char -> count_byte d (encode_param kv) = 0%nat.
Proof.
  intros Hd. unfold encode_param.
  rewrite !count_byte_app, !QueryEscape_count by set_solver.
  repeat (apply elem_of_cons in Hd as [->|Hd]); [done..|by apply elem_of_nil in Hd].
Qed.

Lemma encode_param_equals kv : count_byte "=" (encode_param kv) = 1%nat.
Proof.
  unfold encode_param. by rewrite !count_byte_app, !QueryEscape_count by set_solver.
Qed.

Lemma encode_param_nonempty kv : (0 < String.length (encode_param kv))%nat.
Proof.
  unfold encode_param. rewrite !length_app. cbn. lia.
Qed.

(** ** The query string *)

Section query.

Implicit Types (m : gmap string string) (l : list (string * string)).

#[local] Abbreviation add_all acc l :=
  (foldl (fun (qp : url.Values) kv => url.Add kv.1 (fmt.Sprint kv.2) qp) acc l).

#[local] Abbreviation single := (fun v : string => [v]).

Lemma add_all_lookup l (acc : url.Values) k :
  NoDup l.*1 -> (forall k', k' ∈ l.*1 -> acc !! k' = None) ->
  add_all acc l !! k =
  match (list_to_map l : gmap string string) !! k with
  | Some v => Some [v]
  | None => acc !! k
  end.
Proof.
  revert acc. induction l as [|[k0 v0] l IH]; intros acc Hnd Hfresh; [done|].
  cbn [foldl fst snd fmap list_fmap] in *.
  apply NoDup_cons in Hnd as [Hk0 Hnd].
  unfold url.Add at 2, fmt.Sprint. rewrite (Hfresh k0) by set_solver. cbn [default app].
  rewrite IH; [|done|].
  - cbn [list_to_map foldr uncurry fst snd].
    destruct (decide (k0 = k)) as [->|Hne].
    + rewrite !lookup_insert_eq. by rewrite not_elem_of_list_to_map_1.
    + by rewrite !lookup_insert_ne.
  - intros k' Hk'. rewrite lookup_insert_ne by set_solver.
    apply Hfresh. set_solver.
Qed.

(** The [url.Values] built from the query map holds, whatever the order of
    the visit, one value under each key of the map. *)
Lemma add_all_permutation l m :
  l ≡ₚ map_to_list m -> add_all ∅ l = single <$> m.
Proof.
  intros Hl. apply map_eq. intros k.
  assert (Hnd : NoDup l.*1) by (rewrite Hl; apply NoDup_fst_map_to_list).
  rewrite add_all_lookup by done.
  rewrite (list_to_map_proper l (map_to_list m)), list_to_map_to_list by done.
  rewrite lookup_fmap, lookup_empty. by destruct (m !! k).
Qed.

Lemma sorted_keys_permutation (ks : list string) m :
  ks ≡ₚ (map_to_list (single <$> m)).*1 ->
  merge_sort String.le ks = merge_sort String.le (map_to_list m).*1.
Proof.
  intros Hks. apply (Sorted_unique String.le).
  - apply Sorted_merge_sort, _.
  - apply Sorted_merge_sort, _.
  - rewrite !merge_sort_Permutation, Hks, map_to_list_fmap.
    rewrite <- list_fmap_compose.
    by rewrite (list_fmap_ext (fst ∘ prod_map id single) fst) by by intros ? [].
Qed.

(** One step of [Encode]'s buffer: a separator unless the buffer is empty,
    then the parameter. *)
#[local] Abbreviation write buf p :=
  ((if 0 <? Z.of_nat (String.length buf) then buf +:+ "&" else buf) +:+ p).

Lemma write_all_nonempty (ps : list string) (buf : string) :
  (0 < String.length buf)%nat ->
  foldl (fun buf p => write buf p) buf ps
  = buf +:+ foldr (fun p s => "&" +:+ p +:+ s) "" ps.
Proof.
  revert buf. induction ps as [|p ps IH]; intros buf Hbuf; cbn [foldl foldr].
  - by rewrite app_nil_r_s.
  - destruct (Z.ltb_spec 0 (Z.of_nat (String.length buf))) as [_|]; [|lia].
    rewrite IH by (rewrite !length_app; lia).
    by rewrite !app_assoc_s.
Qed.

Lemma write_all (ps : list string) :
  (forall p, p ∈ ps -> (0 < String.length p)%nat) ->
  foldl (fun buf p => write buf p) "" ps = String.concat "&" ps.
Proof.
  destruct ps as [|p ps]; [done|]. intros Hne. cbn [foldl].
  change (write "" p) with p.
  rewrite write_all_nonempty by (apply Hne; set_solver).
  clear Hne. revert p. induction ps as [|q ps IH]; intros p; cbn [foldr].
  - apply app_nil_r_s.
  - rewrite (IH q). reflexivity.
Qed.

Lemma encode_keys m (keys : list string) (buf : string) :
  (forall k, k ∈ keys -> is_Some (m !! k)) ->
  foldl (url.encode_key (single <$> m)) buf keys
  = foldl (fun buf p => write buf p) buf
      (encode_param <$> ((fun k => (k, default "" (m !! k))) <$> keys)).
Proof.
  revert buf. induction keys as [|k keys IH]; intros buf Hin; [done|].
  cbn [foldl fmap list_fmap]. rewrite <- IH by set_solver. f_equal.
  destruct (Hin k) as [v Hv]; [set_solver|].
  unfold url.encode_key. rewrite lookup_fmap, Hv. reflexivity.
Qed.

Lemma Encode_query_string (ks : list string) m :
  m <> ∅ -> ks ≡ₚ (map_to_list (single <$> m)).*1 ->
  url.Encode ks (single <$> m) = query_string m.
Proof.
  intros Hne Hks. unfold url.Encode, query_string, query_params.
  rewrite bool_decide_eq_false_2.
  2: { rewrite map_size_fmap. by intros ?%map_size_empty_inv. }
  cbn zeta. rewrite (sorted_keys_permutation ks m Hks).
  rewrite encode_keys.
  - apply write_all. intros p (kv & -> & _)%list_elem_of_fmap.
    apply encode_param_nonempty.
  - intros k Hk. rewrite merge_sort_Permutation in Hk.
    apply list_elem_of_fmap in Hk as ([k' v] & -> & Hkv).
    apply elem_of_map_to_list in Hkv. by eexists.
Qed.

Lemma query_params_permutation m : query_params m ≡ₚ map_to_list m.
Proof.
  unfold query_params. rewrite merge_sort_Permutation, <- list_fmap_compose.
  rewrite <- (list_fmap_id (map_to_list m)) at 2.
  rewrite (list_fmap_ext _ id); [done|].
  intros i [k v] Hkv%list_elem_of_lookup_2%elem_of_map_to_list.
  cbn. by rewrite Hkv.
Qed.

Lemma query_params_sorted m : Sorted String.le (query_params m).*1.
Proof.
  unfold query_params. rewrite <- list_fmap_compose.
  rewrite (list_fmap_ext _ id) by done. rewrite list_fmap_id.
  apply Sorted_merge_sort, _.
Qed.

End query.

Lemma concat_count_other (d : ascii) (ps : list string) :
  d <> "&"%char -> (forall p, p ∈ ps -> count_byte d p = 0%nat) ->
  count_byte d (String.concat "&" ps) = 0%nat.
Proof.
  intros Hd. induction ps as [|p ps IH]; intros Hps; [done|].
  destruct ps as [|q ps]; [apply Hps; set_solver|].
  change (String.concat "&" (p :: q :: ps))
    with (p +:+ "&" +:+ String.concat "&" (q :: ps)).
  rewrite !count_byte_app, IH, Hps by set_solver. cbn [count_byte].
  destruct (Ascii.eqb_spec "&" d); [congruence|done].
Qed.

Lemma concat_count_ampersand (ps : list string) :
  (forall p, p ∈ ps -> count_byte "&" p = 0%nat) ->
  count_byte "&" (String.concat "&" ps) = (length ps - 1)%nat.
Proof.
  induction ps as [|p ps IH]; intros Hps; [done|].
  destruct ps as [|q ps]; [apply Hps; set_solver|].
  change (String.concat "&" (p :: q :: ps))
    with (p +:+ "&" +:+ String.concat "&" (q :: ps)).
  rewrite !count_byte_app, IH, Hps by set_solver. cbn. lia.
Qed.

Lemma finalURL_query E h r :
  env_ok E -> Query r <> ∅ ->
  finalURL E h r = getURL h (URL r) +:+ "?" +:+ query_string (Query r).
Proof.
  intros [Hq Hv _] Hne. unfold finalURL. cbn zeta.
  rewrite (add_all_permutation _ _ (Hq (Query r))).
  rewrite bool_decide_eq_true_2.
  2: { rewrite map_size_fmap.
       apply map_size_non_empty_iff in Hne. lia. }
  unfold fmt.Sprintf_s_question_s. by rewrite Encode_query_string.
Qed.

Lemma finalURL_no_query E h r :
  env_ok E -> Query r = ∅ -> finalURL E h r = getURL h (URL r).
Proof.
  intros [Hq _ _] He. unfold finalURL. cbn zeta.
  rewrite (add_all_permutation _ _ (Hq (Query r))), He, fmap_empty.
  by rewrite bool_decide_eq_false_2 by (rewrite map_size_empty; lia).
Qed.

Lemma getURL_count c h rURL :
  (count_byte c rURL <= count_byte c (getURL h rURL))%nat.
Proof.
  rewrite getURL_unfold. destruct (strings.HasPrefix rURL "http"); [done|].
  rewrite count_byte_app. lia.
Qed.

(** C2.  With a query map that is not empty, the URL [Do] submits is the
    resolved URL, one [?], and the parameters joined by [&]: one
    percent-encoded [key=value] per entry of the map, each entry once, in
    the order of the keys whatever the order in which the maps were
    visited.  The [?] is added without looking at the resolved URL: the
    submitted URL has one [?] more than the resolved URL, every [?] of the
    request URL among them. *)
Theorem Do_query_string E ctx h p st o r :
  env_ok E -> deref p st = Some o -> DoRequest o = Some r -> Query r <> ∅ ->
  let params := encode_param <$> query_params (Query r) in
  exists req,
    submitted (Do E ctx h p st) = Some (ClientEngine h, req, timeout h) /\
    fasthttp.requestURI (fasthttp.Header req)
      = getURL h (URL r) +:+ "?" +:+ String.concat "&" params /\
    query_params (Query r) ≡ₚ map_to_list (Query r) /\
    (forall k v, (k, v) ∈ query_params (Query r) <-> Query r !! k = Some v) /\
    Sorted String.le (query_params (Query r)).*1 /\
    NoDup params /\
    (forall kv, decode_param (encode_param kv) = kv) /\
    length params = size (Query r) /\
    count_byte "&" (String.concat "&" params) = (size (Query r) - 1)%nat /\
    (forall E', env_ok E' ->
       finalURL E' h r = fasthttp.requestURI (fasthttp.Header req)) /\
    count_byte "?" (fasthttp.requestURI (fasthttp.Header req))
      = S (count_byte "?" (getURL h (URL r))) /\
    (count_byte "?" (URL r) < count_byte "?" (fasthttp.requestURI (fasthttp.Header req)))%nat.
Proof.
  intros Hok Ho Hr Hne params. exists (carrier E h r).
  assert (Hperm := query_params_permutation (Query r)).
  assert (Huri : fasthttp.requestURI (fasthttp.Header (carrier E h r))
                 = getURL h (URL r) +:+ "?" +:+ String.concat "&" params).
  { rewrite carrier_requestURI. by apply finalURL_query. }
  assert (Hcount : count_byte "?" (fasthttp.requestURI (fasthttp.Header (carrier E h r)))
                   = S (count_byte "?" (getURL h (URL r)))).
  { rewrite Huri, !count_byte_app, concat_count_other; [cbn; lia|done|].
    intros q (kv & -> & _)%list_elem_of_fmap. apply encode_param_count. set_solver. }
  split; [by apply (Do_submitted E ctx h p st o r)|].
  split; [exact Huri|]. split; [exact Hperm|]. split.
  { intros k v. by rewrite Hperm, elem_of_map_to_list. }
  split; [apply query_params_sorted|].
  split.
  { subst params. apply NoDup_fmap_2_strong.
    - intros kv1 kv2 _ _. apply encode_param_inj.
    - rewrite Hperm. apply NoDup_map_to_list. }
  split; [apply decode_encode_param|]. split.
  { subst params. by rewrite length_fmap, Hperm, length_map_to_list. }
  split.
  { rewrite concat_count_ampersand.
    - subst params. by rewrite length_fmap, Hperm, length_map_to_list.
    - intros q (kv & -> & _)%list_elem_of_fmap. apply encode_param_count. set_solver. }
  split.
  { intros E' Hok'. rewrite Huri. by apply finalURL_query. }
  split; [exact Hcount|].
  rewrite Hcount. pose proof (getURL_count "?" h (URL r)). lia.
Qed.

Lemma fixed_env_ok t0 t1 answer : env_ok (fixed_env t0 t1 answer).
Proof. by split. Qed.

Lemma reversed_env_ok t0 t1 answer : env_ok (reversed_env t0 t1 answer).
Proof. split; intros; cbn; by rewrite reverse_Permutation. Qed.

Lemma Do_query_string_witness :
  exists req,
    submitted (Do (fixed_env t_entry t_end (inr ok_response)) background api_client
                  (Some 1%positive)
                  (store_of {| StartTime := None; DoRequest := Some search |}))
      = Some (ClientEngine api_client, req, timeout api_client) /\
    fasthttp.requestURI (fasthttp.Header req)
      = "https://api.example.com/search?x=1?lang=pt&q=a+b%26c" /\
    count_byte "?" (fasthttp.requestURI (fasthttp.Header req)) = 2%nat.
Proof.
  assert (Hne : Query search <> ∅).
  { intros H. apply (f_equal size) in H. by vm_compute in H. }
  destruct (Do_query_string
              (fixed_env t_entry t_end (inr ok_response)) background api_client
              (Some 1%positive)
              (store_of {| StartTime := None; DoRequest := Some search |})
              {| StartTime := None; DoRequest := Some search |} search
              (fixed_env_ok _ _ _) eq_refl eq_refl Hne)
    as (req & Hsub & Huri & _ & _ & _ & _ & _ & _ & _ & _ & Hcount & _).
  exists req. split; [exact Hsub|]. split.
  - rewrite Huri. by vm_compute.
  - rewrite Hcount. by vm_compute.
Defined.

(** The scenario of the specification, under both orders of visit. *)
Example Do_get_users :
  submitted (Do (fixed_env t_entry t_end (inr ok_response)) background api_client
                (Some 1%positive)
                (store_of {| StartTime := None; DoRequest := Some get_users |}))
  = Some ({| MaxIdemponentCallAttempts := 5 |},
          {| fasthttp.Header :=
               {| fasthttp.method := "GET";
                  fasthttp.requestURI := "https://api.example.com/users?id=42";
                  fasthttp.hContentType := "application/json";
                  fasthttp.h := [] |};
             fasthttp.body := "" |},
          30000000000).
Proof. by vm_compute. Qed.

Example finalURL_both_orders :
  finalURL (fixed_env t_entry t_end (inr ok_response)) api_client search
  = "https://api.example.com/search?x=1?lang=pt&q=a+b%26c" /\
  finalURL (reversed_env t_entry t_end (inr ok_response)) api_client search
  = "https://api.example.com/search?x=1?lang=pt&q=a+b%26c" /\
  range_Query (fixed_env t_entry t_end (inr ok_response)) (Query search)
  <> range_Query (reversed_env t_entry t_end (inr ok_response)) (Query search).
Proof. repeat split; by vm_compute. Qed.

Example QueryEscape_bytes :
  url.QueryEscape "-_.~ $&+,/:;=?@%" = "-_.~+%24%26%2B%2C%2F%3A%3B%3D%3F%40%25".
Proof. reflexivity. Qed.

(** * Further properties of the package *)

(** ** The resolved URL and the query *)

(** The URL [Do] submits begins with the resolved URL, and is the resolved
    URL exactly when the query map is empty: no [?] is added for an empty
    map. *)
Theorem Do_query_empty_iff E ctx h p st o r :
  env_ok E -> deref p st = Some o -> DoRequest o = Some r ->
  exists req,
    submitted (Do E ctx h p st) = Some (ClientEngine h, req, timeout h) /\
    (exists suffix,
       fasthttp.requestURI (fasthttp.Header req) = getURL h (URL r) +:+ suffix) /\
    (Query r = ∅ <-> fasthttp.requestURI (fasthttp.Header req) = getURL h (URL r)).
Proof.
  intros Hok Ho Hr. exists (carrier E h r).
  split; [by apply (Do_submitted E ctx h p st o r)|].
  rewrite carrier_requestURI.
  destruct (decide (Query r = ∅)) as [He|Hne].
  - rewrite (finalURL_no_query E h r Hok He). split.
    + exists "". by rewrite app_nil_r_s.
    + done.
  - rewrite (finalURL_query E h r Hok Hne). split.
    + by eexists.
    + split; [done|]. intros Heq. apply (f_equal String.length) in Heq.
      rewrite !length_app in Heq. cbn in Heq. lia.
Qed.

Lemma Do_query_empty_iff_witness :
  exists req,
    submitted (Do (fixed_env t_entry t_end (inr ok_response)) background api_client
                  (Some 1%positive)
                  (store_of {| StartTime := None; DoRequest := Some post_xml |}))
      = Some (ClientEngine api_client, req, timeout api_client) /\
    fasthttp.requestURI (fasthttp.Header req) = "https://other.example.com/x".
Proof.
  destruct (Do_query_empty_iff
              (fixed_env t_entry t_end (inr ok_response)) background api_client
              (Some 1%positive)
              (store_of {| StartTime := None; DoRequest := Some post_xml |})
              {| StartTime := None; DoRequest := Some post_xml |} post_xml
              (fixed_env_ok _ _ _) eq_refl eq_refl)
    as (req & Hsub & _ & Hiff).
  exists req. split; [exact Hsub|]. by apply Hiff.
Defined.

(** When the base URL begins with [http], every resolved URL does, and
    resolving a resolved URL changes nothing. *)
Theorem getURL_absolute_base (h : Client) (rURL : string) :
  (exists rest, baseURL h = "http" +:+ rest) ->
  (exists rest, getURL h rURL = "http" +:+ rest) /\
  getURL h (getURL h rURL) = getURL h rURL.
Proof.
  intros [rest Hbase].
  assert (Habs : exists rest', getURL h rURL = "http" +:+ rest').
  { rewrite getURL_unfold. destruct (strings.HasPrefix rURL "http") eqn:Hp.
    - by apply HasPrefix_http_iff.
    - exists (rest +:+ rURL). by rewrite Hbase, app_assoc_s. }
  split; [exact Habs|].
  apply HasPrefix_http_iff in Habs.
  by rewrite (getURL_unfold h (getURL h rURL)), Habs.
Qed.

Lemma getURL_absolute_base_witness :
  getURL api_client (getURL api_client "/users") = getURL api_client "/users".
Proof.
  apply (getURL_absolute_base api_client "/users").
  by exists "s://api.example.com".
Defined.

(** Without that, resolving twice puts the base URL twice. *)
Example getURL_twice_relative_base :
  getURL {| ClientEngine := {| MaxIdemponentCallAttempts := 5 |};
            baseURL := "api.example.com"; contentType := ""; timeout := 0 |}
    (getURL {| ClientEngine := {| MaxIdemponentCallAttempts := 5 |};
               baseURL := "api.example.com"; contentType := ""; timeout := 0 |}
       "/users")
  = "api.example.comapi.example.com/users".
Proof. reflexivity. Qed.

(** ** Nil pointers *)


(** ** The constructor's arguments *)

(** [New] reads its first argument only, and of that not the certificate:
    later arguments and [TLSCert] change nothing in the client.  It panics
    exactly when the first argument is a nil pointer. *)
Theorem New_reads_first_only (o : NewClientOptions)
  (rest : list (option NewClientOptions)) (cert : string) :
  New (Some o :: rest) = New [Some o] /\
  New [Some {| BaseURL := BaseURL o; DefaultContentType := DefaultContentType o;
               Timeout := Timeout o; Attemps := Attemps o; TLSCert := cert |}]
    = New [Some o] /\
  (forall opts, New opts = None <-> exists rest', opts = None :: rest').
Proof.
  split; [done|]. split; [done|].
  intros [|[o'|] opts]; cbn.
  - split; [done|]. by intros [? ?].
  - split; [done|]. by intros [? ?].
  - split; [by eexists|done].
Qed.

(** ** What the request's headers cannot change *)

(** The carrier [Do] submits has the request's method and body and the
    final URL, whatever the request's headers are: two requests that differ
    in their headers alone are submitted with the same method, URL and
    body, to the same engine and with the same timeout. *)
Theorem Do_headers_frame E ctx h p st o r (hs : gmap string string) :
  deref p st = Some o -> DoRequest o = Some r ->
  let r' := {| URL := URL r; Method := Method r; ContentType := ContentType r;
               Headers := hs; Query := Query r; Body := Body r |} in
  exists req,
    submitted (Do E ctx h p st) = Some (ClientEngine h, req, timeout h) /\
    fasthttp.method (fasthttp.Header req) = Method r /\
    fasthttp.body req = Body r /\
    fasthttp.requestURI (fasthttp.Header req) = finalURL E h r /\
    fasthttp.method (fasthttp.Header (carrier E h r')) = fasthttp.method (fasthttp.Header req) /\
    fasthttp.body (carrier E h r') = fasthttp.body req /\
    fasthttp.requestURI (fasthttp.Header (carrier E h r'))
      = fasthttp.requestURI (fasthttp.Header req).
Proof.
  intros Ho Hr r'. exists (carrier E h r).
  split; [by apply (Do_submitted E ctx h p st o r)|].
  by rewrite !carrier_method, !carrier_body, !carrier_requestURI.
Qed.

Lemma Do_headers_frame_witness :
  exists req,
    submitted (Do (fixed_env t_entry t_end (inr ok_response)) background api_client
                  (Some 1%positive)
                  (store_of {| StartTime := None; DoRequest := Some post_xml |}))
      = Some (ClientEngine api_client, req, timeout api_client) /\
    fasthttp.method (fasthttp.Header req) = "POST" /\
    fasthttp.body req = "{}".
Proof.
  destruct (Do_headers_frame
              (fixed_env t_entry t_end (inr ok_response)) background api_client
              (Some 1%positive)
              (store_of {| StartTime := None; DoRequest := Some post_xml |})
              {| StartTime := None; DoRequest := Some post_xml |} post_xml
              ∅ eq_refl eq_refl)
    as (req & Hsub & Hm & Hb & _).
  exists req. by split; [exact Hsub|split; [exact Hm|exact Hb]].
Defined.

(** ** The response *)

Lemma int32_id z : - 2 ^ 31 <= z < 2 ^ 31 -> int32 z = z.
Proof. intros H. unfold int32. rewrite Z.mod_small; lia. Qed.

Lemma int32_range z : - 2 ^ 31 <= int32 z < 2 ^ 31.
Proof. unfold int32. pose proof (Z.mod_pos_bound (z + 2 ^ 31) (2 ^ 32)). lia. Qed.

(** On success the response carries the transport's body as it is, and
    the transport's status code: the code itself when it fits 32 bits, 200
    for a code that was never set; in every case a 32-bit value. *)
Theorem Do_response_status_body E ctx h p st o r res :
  deref p st = Some o -> DoRequest o = Some r ->
  DoTimeout E (ClientEngine h) (carrier E h r) (timeout h) = inr res ->
  exists resp,
    outcome (Do E ctx h p st) = Return (Some resp) None /\
    RespBody resp = fasthttp.respBody res /\
    - 2 ^ 31 <= StatusCode resp < 2 ^ 31 /\
    (fasthttp.statusCode res = 0 -> StatusCode resp = 200) /\
    (fasthttp.statusCode res <> 0 ->
     - 2 ^ 31 <= fasthttp.statusCode res < 2 ^ 31 ->
     StatusCode resp = fasthttp.statusCode res).
Proof.
  intros Ho Hr Ht. rewrite (Do_unfold _ _ _ _ _ _ _ Ho Hr). cbn zeta.
  rewrite Ht. eexists. split; [reflexivity|]. cbn [RespBody StatusCode outcome].
  split; [done|]. split; [apply int32_range|].
  unfold fasthttp.StatusCode_. split.
  - intros ->. reflexivity.
  - intros Hnz Hfit. destruct (Z.eqb_spec (fasthttp.statusCode res) 0); [done|].
    by apply int32_id.
Qed.

Lemma Do_response_status_body_witness :
  exists resp,
    outcome (Do (fixed_env t_entry t_end (inr ok_response)) background api_client
                (Some 1%positive)
                (store_of {| StartTime := None; DoRequest := Some get_users |}))
      = Return (Some resp) None /\
    RespBody resp = "{}" /\ StatusCode resp = 200.
Proof.
  destruct (Do_response_status_body
              (fixed_env t_entry t_end (inr ok_response)) background api_client
              (Some 1%positive)
              (store_of {| StartTime := None; DoRequest := Some get_users |})
              {| StartTime := None; DoRequest := Some get_users |} get_users
              ok_response eq_refl eq_refl eq_refl)
    as (resp & Hout & Hbody & _ & _ & Hcode).
  exists resp. split; [exact Hout|]. split; [exact Hbody|].
  apply Hcode; by vm_compute.
Defined.

(** A status code that does not fit 32 bits wraps around. *)
Example int32_wraps : int32 (2 ^ 31 + 200) = - 2 ^ 31 + 200.
Proof. reflexivity. Qed.

(** ** Bounds of the response time *)

Lemma Sub_range (t u : time.Time) :
  time.minDuration <= time.Sub t u <= time.maxDuration.
Proof.
  unfold time.Sub.
  destruct (time.mono t) as [mt|], (time.mono u) as [mu|].
  1: { unfold time.subMono. cbn zeta.
       pose proof (int64_lt_range (mt - mu)).
       unfold time.minDuration, time.maxDuration.
       destruct (_ && _); [lia|]. destruct (_ && _); lia. }
  all: unfold time.subWall, time.minDuration, time.maxDuration; cbn zeta;
    rewrite Z.gtb_ltb;
    destruct (Z.ltb_spec (2 ^ 63 - 1) (time.wall t - time.wall u)); [lia|];
    destruct (Z.ltb_spec (time.wall t - time.wall u) (- 2 ^ 63)); lia.
Qed.

(** [getResponseTime] never leaves the range of the milliseconds of a
    [Duration], whatever the two times are; it is 0 when the two times are
    less than a millisecond apart, in either direction; and it turns its
    sign when the two times are exchanged, as long as their distance fits
    a [Duration]. *)
Theorem getResponseTime_range (start end_ : time.Time) :
  -9223372036854 <= getResponseTime start end_ <= 9223372036854 /\
  (-1000000 < time.elapsed start end_ < 1000000 ->
   getResponseTime start end_ = 0) /\
  (time.minDuration < time.elapsed start end_ <= time.maxDuration ->
   getResponseTime end_ start = - getResponseTime start end_).
Proof.
  unfold getResponseTime, time.Milliseconds. split; [|split].
  - pose proof (Sub_range end_ start) as [Hlo Hhi].
    unfold time.minDuration, time.maxDuration in *.
    apply (Z.quot_le_mono _ _ 1000000) in Hlo; [|lia].
    apply (Z.quot_le_mono _ _ 1000000) in Hhi; [|lia].
    change (- 2 ^ 63 ÷ 1000000) with (-9223372036854) in Hlo.
    change ((2 ^ 63 - 1) ÷ 1000000) with 9223372036854 in Hhi. lia.
  - intros Hclose. rewrite Sub_exact.
    2: { unfold time.minDuration, time.maxDuration. lia. }
    destruct (Z.le_gt_cases 0 (time.elapsed start end_)).
    + apply Z.quot_small. lia.
    + rewrite <- (Z.opp_involutive (time.elapsed start end_)).
      rewrite Z.quot_opp_l by lia. rewrite Z.quot_small; lia.
  - intros Hfit.
    assert (Hopp : time.elapsed end_ start = - time.elapsed start end_).
    { unfold time.elapsed.
      destruct (time.mono start), (time.mono end_); lia. }
    rewrite !Sub_exact; unfold time.minDuration, time.maxDuration in *;
      rewrite ?Hopp; try lia.
    apply Z.quot_opp_l. lia.
Qed.

Lemma getResponseTime_range_witness :
  getResponseTime t_end t_entry = - getResponseTime t_entry t_end.
Proof.
  apply (getResponseTime_range t_entry t_end). by vm_compute.
Defined.

(** ** One options object, two calls *)

(** An options object whose [StartTime] was nil comes back from the first
    call with the first call's entry time, however that call ended; a
    second call with the same object leaves it as it is, and measures its
    [Response.Time] from the entry of the first call, not from its own. *)
Theorem Do_twice_same_options E1 E2 ctx1 ctx2 h1 h2 (a : positive) (st : Store) o r res :
  st !! a = Some o -> StartTime o = None -> DoRequest o = Some r ->
  DoTimeout E2 (ClientEngine h2) (carrier E2 h2 r) (timeout h2) = inr res ->
  let st1 := store (Do E1 ctx1 h1 (Some a) st) in
  let run2 := Do E2 ctx2 h2 (Some a) st1 in
  store run2 = st1 /\
  exists resp,
    outcome run2 = Return (Some resp) None /\
    Time resp = getResponseTime (Now_entry E1) (Now_end E2).
Proof.
  intros Ha Hs Hr Ht st1 run2.
  assert (Hst1 : st1 !! a
                 = Some {| StartTime := Some (Now_entry E1); DoRequest := Some r |}).
  { subst st1. rewrite (Do_store E1 ctx1 h1 (Some a) st o Ha), Hs, Hr.
    cbn. apply lookup_insert_eq. }
  subst run2. split.
  - by rewrite (Do_store E2 ctx2 h2 (Some a) st1 _ Hst1).
  - rewrite (Do_unfold E2 ctx2 h2 (Some a) st1 _ r Hst1 eq_refl). cbn zeta.
    rewrite Ht. by eexists.
Qed.

Lemma Do_twice_same_options_witness :
  exists resp,
    outcome (Do (fixed_env t_entry2 t_end2 (inr ok_response)) background api_client
                (Some 1%positive)
                (store (Do (fixed_env t_entry t_end (inl fasthttp.ErrTimeout))
                           background api_client (Some 1%positive)
                           (store_of {| StartTime := None;
                                        DoRequest := Some get_users |}))))
      = Return (Some resp) None /\
    Time resp = 2040.
Proof.
  destruct (Do_twice_same_options
              (fixed_env t_entry t_end (inl fasthttp.ErrTimeout))
              (fixed_env t_entry2 t_end2 (inr ok_response))
              background background api_client api_client 1%positive
              (store_of {| StartTime := None; DoRequest := Some get_users |})
              {| StartTime := None; DoRequest := Some get_users |} get_users
              ok_response eq_refl eq_refl eq_refl eq_refl)
    as (_ & resp & Hout & Htime).
  exists resp. split; [exact Hout|]. rewrite Htime. reflexivity.
Defined.

(** ** The client of [New()] *)

(** The client made with no options has an empty base URL: it resolves
    every request URL to itself.  It submits with 5 attempts and a timeout
    of 30 s, and with the content type [application/json] when the request
    names none, neither in [ContentType] nor among its headers. *)
Theorem New_default_client (c : Client) :
  New [] = Some c ->
  (forall rURL, getURL c rURL = rURL) /\
  (forall E ctx p st o r,
     env_ok E -> deref p st = Some o -> DoRequest o = Some r ->
     exists req,
       submitted (Do E ctx c p st)
         = Some ({| MaxIdemponentCallAttempts := 5 |}, req, 30 * time.Second) /\
       (Query r = ∅ -> fasthttp.requestURI (fasthttp.Header req) = URL r) /\
       (ContentType r = "" ->
        (forall k, is_Some (Headers r !! k) ->
           fasthttp.normalizeHeaderKey k <> "Content-Type") ->
        fasthttp.hContentType (fasthttp.Header req) = "application/json")).
Proof.
  intros Hc.
  assert (Hf : baseURL c = "" /\ contentType c = "application/json" /\
               timeout c = 30 * time.Second /\
               ClientEngine c = {| MaxIdemponentCallAttempts := 5 |}).
  { by injection Hc as <-. }
  destruct Hf as (Hbase & Hctype & Htimeout & Hengine).
  assert (Hurl : forall rURL, getURL c rURL = rURL).
  { intros rURL. rewrite getURL_unfold, Hbase.
    by destruct (strings.HasPrefix _ _). }
  split; [exact Hurl|].
  intros E ctx p st o r Hok Ho Hr. exists (carrier E c r). split.
  { by rewrite (Do_submitted E ctx c p st o r Ho Hr), Hengine, Htimeout. }
  split.
  - intros He. by rewrite carrier_requestURI, finalURL_no_query, Hurl.
  - intros Hct Hnone. unfold carrier.
    destruct (set_all_hContentType (range_Headers E (Headers r))
                (carrier_before_headers E c r))
      as [[_ Heq]|(l1 & k0 & v0 & l2 & Hl & Hk0 & _ & _)].
    + rewrite Heq. cbn. unfold cType. by rewrite Hct, Hctype.
    + destruct (Hnone k0); [|done]. exists v0.
      apply elem_of_map_to_list. rewrite <- (range_Headers_ok E Hok), Hl.
      set_solver.
Qed.

Lemma New_default_client_witness :
  getURL {| ClientEngine := {| MaxIdemponentCallAttempts := 5 |};
            baseURL := ""; contentType := "application/json";
            timeout := 30 * time.Second |} "/users" = "/users".
Proof.
  apply (New_default_client _ eq_refl).
Defined.

(** ** The response headers as a map *)

Lemma visit_list_to_map (l : list (string * string)) :
  foldl (fun (s : gmap string string) kv => <[kv.1 := kv.2]> s) ∅ l
  = list_to_map (reverse l).
Proof.
  induction l as [|[k v] l IH] using rev_ind; [done|].
  by rewrite visit_snoc, reverse_snoc, list_to_map_cons, IH.
Qed.

Lemma size_list_to_map_le (l : list (string * string)) :
  (size (list_to_map l : gmap string string) <= length l)%nat.
Proof.
  induction l as [|[k v] l IH]; cbn.
  - by rewrite map_size_empty.
  - rewrite map_size_insert.
    destruct (list_to_map l !! k); cbn; lia.
Qed.

(** [mergeResponseHeaders] gives the map of the visited headers read from
    the last to the first.  It has no more entries than headers were
    visited, and none exactly when none was visited; when no header name
    was visited twice, its entries are the visited headers, all of them. *)
Theorem mergeResponseHeaders_list_to_map (res : fasthttp.Response) :
  mergeResponseHeaders res = list_to_map (reverse (fasthttp.visits res)) /\
  (size (mergeResponseHeaders res) <= length (fasthttp.visits res))%nat /\
  (mergeResponseHeaders res = ∅ <-> fasthttp.visits res = []) /\
  (NoDup (fasthttp.visits res).*1 ->
   map_to_list (mergeResponseHeaders res) ≡ₚ fasthttp.visits res /\
   size (mergeResponseHeaders res) = length (fasthttp.visits res)).
Proof.
  rewrite mergeResponseHeaders_visits, visit_list_to_map.
  split; [done|]. split; [|split].
  - rewrite <- (length_reverse (fasthttp.visits res)). apply size_list_to_map_le.
  - destruct (fasthttp.visits res) as [|[k v] l _] using rev_ind; [done|].
    rewrite reverse_snoc, list_to_map_cons. split.
    + intros H. by apply insert_non_empty in H.
    + intros H. by apply app_nil in H as [_ ?].
  - intros Hnd.
    assert (Hnd' : NoDup (reverse (fasthttp.visits res)).*1).
    { by rewrite fmap_reverse, reverse_Permutation. }
    split.
    + by rewrite map_to_list_to_map, reverse_Permutation.
    + by rewrite map_size_list_to_map, length_reverse.
Qed.

Lemma mergeResponseHeaders_list_to_map_witness :
  size (mergeResponseHeaders
          {| fasthttp.statusCode := 204; fasthttp.respBody := "";
             fasthttp.visits := [("Server", "x"); ("Date", "today")] |}) = 2%nat.
Proof.
  apply (mergeResponseHeaders_list_to_map
           {| fasthttp.statusCode := 204; fasthttp.respBody := "";
              fasthttp.visits := [("Server", "x"); ("Date", "today")] |}).
  cbn. apply NoDup_cons. split; [set_solver|].
  apply NoDup_cons. split; [set_solver|]. apply NoDup_nil_2.
Defined.

(** ** The bytes of the query string *)

Lemma string_forall_app P (s t : string) :
  string_forall P (s +:+ t) = string_forall P s && string_forall P t.
Proof.
  induction s as [|a s IH]; [done|]. rewrite app_cons. cbn [string_forall].
  by rewrite IH, andb_assoc.
Qed.

Lemma escape_byte_query_bytes c : string_forall query_byte (url.escape_byte c) = true.
Proof. each_byte c; reflexivity. Qed.

Lemma QueryEscape_query_bytes s : string_forall query_byte (url.QueryEscape s) = true.
Proof.
  induction s as [|c s IH]; [done|]. cbn [url.QueryEscape].
  by rewrite string_forall_app, escape_byte_query_bytes, IH.
Qed.

Lemma query_string_query_bytes (q : gmap string string) :
  string_forall query_byte (query_string q) = true.
Proof.
  unfold query_string.
  induction (query_params q) as [|kv [|kv' l] IH].
  - done.
  - cbn. unfold encode_param.
    by rewrite !string_forall_app, !QueryEscape_query_bytes.
  - change (String.concat "&" (encode_param <$> kv :: kv' :: l))
      with (encode_param kv +:+ "&" +:+ String.concat "&" (encode_param <$> kv' :: l)).
    rewrite !string_forall_app, IH. unfold encode_param.
    by rewrite !string_forall_app, !QueryEscape_query_bytes.
Qed.

(** Whatever bytes the keys and values of the query map hold, what [Do]
    puts after the resolved URL and the [?] is not empty and is made of
    letters, digits and the bytes [- _ . ~ % + = &] alone: no space, no
    [?], no [#], no [/], no control or non-ASCII byte. *)
Theorem Do_query_bytes E ctx h p st o r :
  env_ok E -> deref p st = Some o -> DoRequest o = Some r -> Query r <> ∅ ->
  exists req q,
    submitted (Do E ctx h p st) = Some (ClientEngine h, req, timeout h) /\
    fasthttp.requestURI (fasthttp.Header req) = getURL h (URL r) +:+ "?" +:+ q /\
    q <> "" /\
    string_forall query_byte q = true /\
    (forall c, c ∈ [" "; "?"; "#"; "/"; ":"; "@"]%char -> count_byte c q = 0%nat).
Proof.
  intros Hok Ho Hr Hne. exists (carrier E h r), (query_string (Query r)).
  split; [by apply (Do_submitted E ctx h p st o r)|].
  split; [rewrite carrier_requestURI; by apply finalURL_query|].
  assert (Hsafe := query_string_query_bytes (Query r)).
  split; [|split; [exact Hsafe|]].
  - unfold query_string. pose proof (query_params_permutation (Query r)) as Hp.
    destruct (query_params (Query r)) as [|kv l].
    + apply Permutation_nil_l in Hp. symmetry in Hp.
      by apply map_to_list_empty_iff in Hp.
    + intros Hq. apply (f_equal String.length) in Hq.
      pose proof (encode_param_nonempty kv).
      destruct l as [|kv' l]; cbn in Hq; [lia|].
      change (encode_param kv ++ "&" ++ String.concat "&" (encode_param <$> kv' :: l))%string
        with (encode_param kv +:+ "&" +:+ String.concat "&" (encode_param <$> kv' :: l)) in Hq.
      rewrite !length_app in Hq. lia.
  - intros c Hc. revert Hsafe. generalize (query_string (Query r)) as q.
    induction q as [|a q IH]; [done|]. cbn [string_forall count_byte].
    intros [Ha Hq]%andb_prop. rewrite (IH Hq).
    destruct (Ascii.eqb_spec a c) as [->|]; [|done].
    repeat (apply elem_of_cons in Hc as [->|Hc]); try discriminate Ha.
    by apply elem_of_nil in Hc.
Qed.

Lemma Do_query_bytes_witness :
  exists req q,
    submitted (Do (fixed_env t_entry t_end (inr ok_response)) background api_client
                  (Some 1%positive)
                  (store_of {| StartTime := None; DoRequest := Some search |}))
      = Some (ClientEngine api_client, req, timeout api_client) /\
    fasthttp.requestURI (fasthttp.Header req)
      = getURL api_client "/search?x=1" +:+ "?" +:+ q /\
    count_byte " " q = 0%nat.
Proof.
  assert (Hne : Query search <> ∅).
  { intros H. apply (f_equal size) in H. by vm_compute in H. }
  destruct (Do_query_bytes
              (fixed_env t_entry t_end (inr ok_response)) background api_client
              (Some 1%positive)
              (store_of {| StartTime := None; DoRequest := Some search |})
              {| StartTime := None; DoRequest := Some search |} search
              (fixed_env_ok _ _ _) eq_refl eq_refl Hne)
    as (req & q & Hsub & Huri & _ & _ & Hcount).
  exists req, q. split; [exact Hsub|]. split; [exact Huri|].
  apply Hcount. set_solver.
Defined.

(** ** Reading the query string back *)

Lemma split_on_none c (s : string) : count_byte c s = 0%nat -> split_on c s = [s].
Proof.
  induction s as [|a s IH]; [done|]. cbn [count_byte split_on].
  destruct (Ascii.eqb a c); [done|]. intros H. by rewrite IH.
Qed.

Lemma split_on_app c (s t : string) :
  count_byte c s = 0%nat -> split_on c (s +:+ String c t) = s :: split_on c t.
Proof.
  induction s as [|a s IH].
  - intros _. change ("" +:+ String c t) with (String c t).
    cbn [split_on]. by rewrite Ascii.eqb_refl.
  - rewrite app_cons. cbn [count_byte split_on].
    destruct (Ascii.eqb a c); [done|]. intros H. by rewrite IH.
Qed.

Lemma split_on_concat (ps : list string) :
  ps <> [] -> (forall p, p ∈ ps -> count_byte "&" p = 0%nat) ->
  split_on "&" (String.concat "&" ps) = ps.
Proof.
  induction ps as [|p [|q ps] IH]; intros Hne Hps; [done| |].
  - cbn. apply split_on_none, Hps. set_solver.
  - change (String.concat "&" (p :: q :: ps))
      with (p +:+ String "&" (String.concat "&" (q :: ps))).
    rewrite split_on_app by (apply Hps; set_solver).
    rewrite IH; [done|done|]. intros p' Hp'. apply Hps. set_solver.
Qed.

Lemma parse_query_query_string (q : gmap string string) :
  q <> ∅ -> parse_query (query_string q) = q.
Proof.
  intros Hne. unfold parse_query, query_string.
  pose proof (query_params_permutation q) as Hp.
  rewrite split_on_concat.
  - rewrite <- list_fmap_compose.
    rewrite (list_fmap_ext _ id) by (intros; apply decode_encode_param).
    rewrite list_fmap_id.
    rewrite (list_to_map_proper _ (map_to_list q)); [apply list_to_map_to_list| |done].
    rewrite Hp. apply NoDup_fst_map_to_list.
  - intros Hnil. apply fmap_nil_inv in Hnil. rewrite Hnil in Hp.
    apply Permutation_nil_l in Hp. symmetry in Hp.
    by apply map_to_list_empty_iff in Hp.
  - intros p (kv & -> & _)%list_elem_of_fmap. apply encode_param_count. set_solver.
Qed.

(** Nothing of the query map is lost or confused in the URL: what [Do]
    puts after the [?], cut at every [&], then at the first [=] of each
    piece, and unescaped, is the query map again.  So two requests to one
    URL with different query maps, neither empty, are submitted to
    different URLs. *)
Theorem Do_query_round_trip E ctx h p st o r :
  env_ok E -> deref p st = Some o -> DoRequest o = Some r -> Query r <> ∅ ->
  exists req q,
    submitted (Do E ctx h p st) = Some (ClientEngine h, req, timeout h) /\
    fasthttp.requestURI (fasthttp.Header req) = getURL h (URL r) +:+ "?" +:+ q /\
    parse_query q = Query r /\
    (forall r', URL r' = URL r -> Query r' <> ∅ -> Query r' <> Query r ->
       finalURL E h r' <> fasthttp.requestURI (fasthttp.Header req)).
Proof.
  intros Hok Ho Hr Hne. exists (carrier E h r), (query_string (Query r)).
  split; [by apply (Do_submitted E ctx h p st o r)|].
  rewrite carrier_requestURI, (finalURL_query E h r Hok Hne).
  split; [done|]. split; [by apply parse_query_query_string|].
  intros r' Hurl Hne' Hdiff. rewrite (finalURL_query E h r' Hok Hne'), Hurl.
  intros Heq. apply (inj (String.app _)) in Heq. apply (inj (String.app _)) in Heq.
  apply Hdiff.
  by rewrite <- (parse_query_query_string (Query r')), Heq, parse_query_query_string.
Qed.

Lemma Do_query_round_trip_witness :
  exists req q,
    submitted (Do (fixed_env t_entry t_end (inr ok_response)) background api_client
                  (Some 1%positive)
                  (store_of {| StartTime := None; DoRequest := Some search |}))
      = Some (ClientEngine api_client, req, timeout api_client) /\
    parse_query q = {[ "q" := "a b&c"; "lang" := "pt" ]}.
Proof.
  assert (Hne : Query search <> ∅).
  { intros H. apply (f_equal size) in H. by vm_compute in H. }
  destruct (Do_query_round_trip
              (fixed_env t_entry t_end (inr ok_response)) background api_client
              (Some 1%positive)
              (store_of {| StartTime := None; DoRequest := Some search |})
              {| StartTime := None; DoRequest := Some search |} search
              (fixed_env_ok _ _ _) eq_refl eq_refl Hne)
    as (req & q & Hsub & _ & Hparse & _).
  exists req, q. split; [exact Hsub|exact Hparse].
Defined.

Example parse_query_example :
  parse_query "lang=pt&q=a+b%26c" = {[ "q" := "a b&c"; "lang" := "pt" ]}.
Proof. by vm_compute. Qed.

(** ** From the options to the transport *)

Lemma carrier_default_content_type E h r :
  env_ok E -> ContentType r = "" ->
  (forall k, is_Some (Headers r !! k) ->
     fasthttp.normalizeHeaderKey k <> "Content-Type") ->
  fasthttp.hContentType (fasthttp.Header (carrier E h r)) = contentType h.
Proof.
  intros Hok Hct Hnone. unfold carrier.
  destruct (set_all_hContentType (range_Headers E (Headers r))
              (carrier_before_headers E h r))
    as [[_ Heq]|(l1 & k0 & v0 & l2 & Hl & Hk0 & _ & _)].
  - rewrite Heq. cbn. unfold cType. by rewrite Hct.
  - destruct (Hnone k0); [|done]. exists v0.
    apply elem_of_map_to_list. rewrite <- (range_Headers_ok E Hok), Hl.
    set_solver.
Qed.

(** A client made from an options struct hands the struct's values to the
    transport as they are: its calls are submitted to an engine with
    [Attemps] attempts and with the timeout [Timeout] (a zero [Timeout]
    is a timeout of zero), a relative URL without query is [BaseURL]
    followed by the URL, and a request that names no content type is sent
    with [DefaultContentType]. *)
Theorem New_then_Do (o : NewClientOptions) (rest : list (option NewClientOptions))
  (c : Client) E ctx p st d r :
  New (Some o :: rest) = Some c ->
  env_ok E -> deref p st = Some d -> DoRequest d = Some r ->
  exists req,
    submitted (Do E ctx c p st)
      = Some ({| MaxIdemponentCallAttempts := Attemps o |}, req, Timeout o) /\
    (strings.HasPrefix (URL r) "http" = false -> Query r = ∅ ->
     fasthttp.requestURI (fasthttp.Header req) = BaseURL o +:+ URL r) /\
    (ContentType r = "" ->
     (forall k, is_Some (Headers r !! k) ->
        fasthttp.normalizeHeaderKey k <> "Content-Type") ->
     fasthttp.hContentType (fasthttp.Header req) = DefaultContentType o).
Proof.
  intros Hc Hok Hd Hr.
  assert (Hf : baseURL c = BaseURL o /\ contentType c = DefaultContentType o /\
               timeout c = Timeout o /\
               ClientEngine c = {| MaxIdemponentCallAttempts := Attemps o |}).
  { by injection Hc as <-. }
  destruct Hf as (Hbase & Hctype & Htimeout & Hengine).
  exists (carrier E c r). split.
  { by rewrite (Do_submitted E ctx c p st d r Hd Hr), Hengine, Htimeout. }
  split.
  - intros Hrel He.
    by rewrite carrier_requestURI, finalURL_no_query, getURL_unfold, Hrel, Hbase.
  - intros Hct Hnone. rewrite <- Hctype.
    by apply carrier_default_content_type.
Qed.

Lemma New_then_Do_witness :
  exists req,
    submitted (Do (fixed_env t_entry t_end (inr ok_response)) background
                  {| ClientEngine := {| MaxIdemponentCallAttempts := 0 |};
                     baseURL := "https://api.example.com";
                     contentType := ""; timeout := 0 |}
                  (Some 1%positive)
                  (store_of {| StartTime := None; DoRequest := Some post_xml |}))
      = Some ({| MaxIdemponentCallAttempts := 0 |}, req, 0).
Proof.
  destruct (New_then_Do
              {| BaseURL := "https://api.example.com"; DefaultContentType := "";
                 Timeout := 0; Attemps := 0; TLSCert := "cert.pem" |} []
              {| ClientEngine := {| MaxIdemponentCallAttempts := 0 |};
                 baseURL := "https://api.example.com";
                 contentType := ""; timeout := 0 |}
              (fixed_env t_entry t_end (inr ok_response)) background
              (Some 1%positive)
              (store_of {| StartTime := None; DoRequest := Some post_xml |})
              {| StartTime := None; DoRequest := Some post_xml |} post_xml
              eq_refl (fixed_env_ok _ _ _) eq_refl eq_refl)
    as (req & Hsub & _).
  exists req. exact Hsub.
Defined.
